(** * Pipeline-run list views: filtering, sorting and infinite loading

    A shallow embedding of the three page-level pipeline-run list views
    of the console,

    - [CommitsPipelineRunTab]  (commit details, "Pipeline runs" tab),
    - [PipelineRunsListView]   (application pipeline-run list),
    - [SnapshotPipelineRunsList] (pipeline runs of a snapshot),

    together with the facet configuration they declare, and the
    properties of their infinite-loading wiring, empty and error states,
    facet option counts, sorting and vulnerability enrichment.

    A React function component is embedded as a function from its props
    and from the values its hooks return during one render to the element
    tree it returns.  Hooks and helpers that the views import from other
    modules are the fields of the class [Collaborators]. *)

From Stdlib Require Import ZArith Sorting.Sorted Sorting.Permutation.
From stdpp Require Import base option list strings gmap.

Local Open Scope Z_scope.
Set Warnings "-register-all".

(** ** JavaScript values as the views use them *)

(** A completion: the normal result of an expression, or the [TypeError]
    raised by reading a property of [undefined]. *)
Inductive completion (A : Type) : Type :=
| Normal (a : A)
| ThrowTypeError.
Arguments Normal {A} a.
Arguments ThrowTypeError {A}.

#[global] Instance completion_ret : MRet completion := fun _ a => Normal a.
#[global] Instance completion_bind : MBind completion := fun _ _ f c =>
  match c with
  | Normal a => f a
  | ThrowTypeError => ThrowTypeError
  end.

(** [!!s] for [s : string]: the empty string is falsy. *)
Definition truthy_string (s : string) : bool := negb (String.eqb s "").

(** [!!s] for [s : string | undefined]. *)
Definition truthy (s : option string) : bool :=
  match s with
  | Some s => truthy_string s
  | None => false
  end.

(** [arr[i]] for a number [i] that is an integer: [undefined] outside
    [0 .. arr.length - 1]. *)
Definition array_get {A} (arr : list A) (i : Z) : option A :=
  if i <? 0 then None else arr !! Z.to_nat i.

(** [arr.includes(x)] on an array of strings, [x : string | undefined]. *)
Definition includes (arr : list string) (x : option string) : bool :=
  match x with
  | Some s => existsb (String.eqb s) arr
  | None => false
  end.

(** ** Effects of callbacks

    The only effect a view triggers itself is the request for the next
    page.  A callback is a transformer of the log of requests issued so
    far. *)
Inductive Event : Type := NextPageRequested.

Definition IO (A : Type) : Type := list Event → A * list Event.
Definition io_ret {A} (a : A) : IO A := fun w => (a, w).
Definition io_emit (e : Event) : IO () := fun w => ((), w ++ [e]).

(** [f?.()]: calls [f] unless it is [undefined]. *)
Definition optional_call (f : option (IO ())) : IO () :=
  match f with
  | Some g => g
  | None => io_ret ()
  end.

(** ** URLSearchParams *)

(** An ordered list of key/value pairs; a key may repeat. *)
Definition URLSearchParams : Type := list (string * string).

Definition params_get (p : URLSearchParams) (k : string) : option string :=
  snd <$> List.find (fun kv => String.eqb (fst kv) k) p.

Definition params_getAll (p : URLSearchParams) (k : string) : list string :=
  snd <$> List.filter (fun kv => String.eqb (fst kv) k) p.

Definition params_delete (p : URLSearchParams) (k : string) : URLSearchParams :=
  List.filter (fun kv => negb (String.eqb (fst kv) k)) p.

(** ** Pipeline-run records *)

(** The fields of a [PipelineRunKind] that the views read.  A field that
    some view reads through [?.] is optional. *)
Record ObjectMetadata : Type := {
  name : option string;
  labels : option (gmap string string);
  creationTimestamp : option string;
}.

Record PipelineRunStatus : Type := {
  startTime : option string;
}.

Record PipelineRunKind : Type := {
  metadata : option ObjectMetadata;
  status : option PipelineRunStatus;
}.

(** [plr.status?.startTime] *)
Definition status_startTime (plr : PipelineRunKind) : option string :=
  s ← status plr; startTime s.

(** [obj.metadata.name] in [getRowProps]. *)
Definition getRowProps (obj : PipelineRunKind) : completion (option string) :=
  match metadata obj with
  | Some m => Normal (name m)
  | None => ThrowTypeError
  end.

(** ** Filter configuration *)

Record FilterOption : Type := {
  value : string;
  label : string;
  count : nat;
}.

Record SearchAttributes : Type := {
  attributes : list (string * string);       (* key, label *)
  defaultAttribute : string;
  getPlaceholder : string → string;
}.

(** Every entry the three views declare has [mode: 'client']; the mode
    is not kept. *)
Inductive FilterConfig : Type :=
| search (param : string) (searchAttributes : SearchAttributes)
| multiSelect (param : string) (label : string)
    (getOptions : list PipelineRunKind → completion (list FilterOption))
    (filterFn : PipelineRunKind → option (list string) → completion bool).

Record FilteredData : Type := {
  filteredData : list PipelineRunKind;
  isFiltered : bool;
}.

(** ** A [Map<string, number>]

    Entries are kept in insertion order; [set] on a present key replaces
    its value in place. *)
Definition JSMap : Type := list (string * nat).

Fixpoint map_get (m : JSMap) (k : string) : option nat :=
  match m with
  | [] => None
  | (k', v) :: m' => if String.eqb k k' then Some v else map_get m' k
  end.

Fixpoint map_set (m : JSMap) (k : string) (v : nat) : JSMap :=
  match m with
  | [] => [(k, v)]
  | (k', v') :: m' =>
      if String.eqb k k' then (k, v) :: m' else (k', v') :: map_set m' k v
  end.

(** [x || 0] for [x : number | undefined]. *)
Definition or_zero (x : option nat) : nat :=
  match x with
  | Some (S n) => S n
  | Some O | None => O
  end.

(** [forEach] with a callback that may throw: the first exception ends
    the loop. *)
Fixpoint forEach {A S} (f : S → A → completion S) (l : list A) (s : S)
  : completion S :=
  match l with
  | [] => Normal s
  | x :: l' => s' ← f s x; forEach f l' s'
  end.

(** [s.charAt(0)] and [s.slice(1)]; a [string] is read as the sequence
    of the code units of the JavaScript string. *)
Definition charAt0 (s : string) : string :=
  match s with
  | String c _ => String c EmptyString
  | EmptyString => EmptyString
  end.

Definition slice1 (s : string) : string :=
  match s with
  | String _ r => r
  | EmptyString => EmptyString
  end.

(** ** Results of the data-access hooks *)

Record HttpError : Type := {
  message : string;
}.

(** The [error] a fetch reports, read as [{ code: number }]; [code] is
    [undefined] when the value carries none. *)
Record FetchError : Type := {
  code : option Z;
}.

Record NextPageProps : Type := {
  isFetchingNextPage : bool;
  hasNextPage : bool;
}.

Record PipelineRunsResult : Type := {
  pipelineRuns : option (list PipelineRunKind);
  loaded : bool;
  error : option FetchError;
  getNextPage : option (IO ());
  nextPage : NextPageProps;
}.

Record PLRVulnerabilities : Type := {
  fetchedPipelineRuns : list string;
}.

Record ApplicationKind : Type := {
  application_metadata : option ObjectMetadata;
}.

Record PipelineRunSelector : Type := {
  filterByCreationTimestampAfter : option string;
  filterByName : option string;
  matchLabels : gmap string string;
}.

Record RouterParams : Type := {
  applicationName : string;
  commitName : string;
}.

(** ** Elements *)

(** The two function components a view hands to the table: [EmptyMsg]
    and [NoDataEmptyMsg].  [onClearFilters] is kept as the query state
    the callback installs. *)
Inductive EmptyStateComponent : Type :=
| PipelineRunEmptyStateMsg (applicationName : string)
| FilteredEmptyStateMsg (onClearFilters : URLSearchParams).

Module Table.

Record InfiniteLoaderProps : Type := {
  isRowLoaded : Z → bool;
  loadMoreRows : IO ();
  rowCount : nat;
}.

(** The props the views pass.  [Header], [Row], [getRowProps] and
    [aria-label] are the same constants at every call site and are left
    out; [key] is kept as the two lengths it is built from. *)
Record Props : Type := {
  key : option (nat * nat);
  unfilteredData : list PipelineRunKind;
  data : list PipelineRunKind;
  loaded : bool;
  customData : PLRVulnerabilities;
  EmptyMsg : EmptyStateComponent;
  NoDataEmptyMsg : option EmptyStateComponent;
  isInfiniteLoading : bool;
  infiniteLoaderProps : InfiniteLoaderProps;
}.

Inductive Body : Type :=
| LoadingBox
| EmptyState (msg : EmptyStateComponent)
| Rows (rows : list PipelineRunKind).

(** Modelled from the spec: the shared [Table] renderer (imported from
    [shared], not part of these files).  A "loaded" flag controls
    whether a loading indicator is shown in place of rows; the
    [EmptyMsg] / [NoDataEmptyMsg] pair distinguishes "filters produced
    nothing" ([data] is empty) from "there is nothing at all"
    ([unfilteredData] is empty).  A call site that passes no
    [NoDataEmptyMsg] leaves [EmptyMsg] as the only empty state the
    table can show. *)
Definition render (p : Props) : Body :=
  if negb (loaded p) then LoadingBox
  else
    match unfilteredData p, NoDataEmptyMsg p with
    | [], Some noData => EmptyState noData
    | _, _ =>
        match data p with
        | [] => EmptyState (EmptyMsg p)
        | _ :: _ => Rows (data p)
        end
    end.

End Table.

Inductive Element : Type :=
| ErrorEmptyState (httpError : HttpError) (title body : string)
| PipelineRunEmptyState (applicationName : string)
| Title (children : string)
| PipelineRunsFilterToolbar (filterConfigs : list FilterConfig)
    (data : list PipelineRunKind) (dataTestId : string)
| TableElement (props : Table.Props)
| Spinner (label : string)
| Fragment (children : list Element).

(** The table a view returns, if it returns one. *)
Fixpoint tableOf (e : Element) : option Table.Props :=
  match e with
  | TableElement p => Some p
  | Fragment children =>
      (fix first (l : list Element) : option Table.Props :=
         match l with
         | [] => None
         | c :: l' =>
             match tableOf c with
             | Some p => Some p
             | None => first l'
             end
         end) children
  | _ => None
  end.

(** What the user sees in place of the rows. *)
Inductive Shown : Type :=
| ShownError (title body : string)
| ShownEmptyState (msg : EmptyStateComponent)
| ShownLoading
| ShownRows (rows : list PipelineRunKind).

Definition shown (e : Element) : option Shown :=
  match e with
  | ErrorEmptyState _ title body => Some (ShownError title body)
  | PipelineRunEmptyState app => Some (ShownEmptyState (PipelineRunEmptyStateMsg app))
  | Spinner _ => Some ShownLoading
  | _ =>
      p ← tableOf e;
      Some match Table.render p with
           | Table.LoadingBox => ShownLoading
           | Table.EmptyState msg => ShownEmptyState msg
           | Table.Rows rows => ShownRows rows
           end
  end.

(** ** Collaborators

    What the views import and do not define: label keys, the status
    derivation, the HTTP error mapper, string primitives of the host, and
    the hooks, each hook standing for the value it returns in the render
    at hand.  A label key names no property that an object inherits, so
    that [labels[key]] is the lookup of [key] in the mapping. *)
Class Collaborators : Type := {
  PIPELINE_TYPE : string;
  APPLICATION : string;
  COMPONENT : string;
  pipelineRunStatus : PipelineRunKind → string;
  HttpError_fromCode : option Z → HttpError;
  toUpperCase : string → string;
  toLowerCase : string → string;
  localeCompare : string → string → Z;
  hasToSorted : bool;
  useParams : RouterParams;
  useNamespace : string;
  useSearchParams : URLSearchParams;
  useApplication : string → string → option ApplicationKind * bool;
  usePipelineRuns : option string → PipelineRunSelector → PipelineRunsResult;
  usePipelineRunsForCommit : string → string → string → PipelineRunsResult;
  useFilteredData :
    list PipelineRunKind → list FilterConfig → completion FilteredData;
  usePLRVulnerabilities : option (list PipelineRunKind) → PLRVulnerabilities;
}.

(** [Array.prototype.sort] / [toSorted] with a comparator.

    The engine applies [ToNumber] to what the comparator returns and
    reads [NaN] (so also [undefined]) as [+0].  The order of comparator
    calls is left to the engine; for a consistent comparator the result
    is fixed: the stable ordering of the elements.  It is computed here by
    stable insertion. *)
Definition SortCompare {A} (comparefn : A → A → option Z) (x y : A) : Z :=
  match comparefn x y with
  | Some v => v
  | None => 0
  end.

Fixpoint sort_insert {A} (comparefn : A → A → option Z) (x : A) (l : list A)
  : list A :=
  match l with
  | [] => [x]
  | y :: l' =>
      if SortCompare comparefn x y <=? 0 then x :: y :: l'
      else y :: sort_insert comparefn x l'
  end.

Fixpoint Array_sort {A} (comparefn : A → A → option Z) (l : list A) : list A :=
  match l with
  | [] => []
  | x :: l' => sort_insert comparefn x (Array_sort comparefn l')
  end.

(** ** What the three views declare alike *)

Section Shared.
Context `{Collaborators}.

(** The [search] entry of [filterConfigs]. *)
Definition searchConfig : FilterConfig :=
  search "search"
    {| attributes := [("name", "Name"); ("commit", "Commit")];
       defaultAttribute := "name";
       getPlaceholder := fun attribute =>
         "Filter by " +:+ toLowerCase attribute +:+ "..." |}.

(** One step of the [forEach] that fills [statusMap] / [typeMap]. *)
Definition countInto (m : JSMap) (k : string) : JSMap :=
  map_set m k (or_zero (map_get m k) + 1)%nat.

(** The [status] entry of [filterConfigs]. *)
Definition statusConfig : FilterConfig :=
  multiSelect "status" "Status"
    (fun data =>
       let statusMap :=
         fold_left (fun statusMap plr =>
                      let status := pipelineRunStatus plr in
                      if truthy_string status then countInto statusMap status
                      else statusMap) data [] in
       Normal ((fun '(status, count) =>
                  {| value := status; label := status; count := count |})
                 <$> statusMap))
    (fun item value =>
       match value with
       | None | Some [] => Normal true
       | Some value => Normal (includes value (Some (pipelineRunStatus item)))
       end).

(** [plr?.metadata.labels[PipelineRunLabel.PIPELINE_TYPE]], as the
    commit tab and the snapshot list read the label: a record without
    [metadata] or without [labels] raises. *)
Definition typeLabel (plr : PipelineRunKind) : completion (option string) :=
  match metadata plr with
  | None => ThrowTypeError
  | Some m =>
      match labels m with
      | None => ThrowTypeError
      | Some ls => Normal (ls !! PIPELINE_TYPE)
      end
  end.

(** [plr?.metadata?.labels?.[PipelineRunLabel.PIPELINE_TYPE]], as the
    application list view reads it. *)
Definition typeLabel_opt (plr : PipelineRunKind) : option string :=
  m ← metadata plr; ls ← labels m; ls !! PIPELINE_TYPE.

(** [if (type) typeMap.set(type, (typeMap.get(type) || 0) + 1)] *)
Definition countType (typeMap : JSMap) (type : option string) : JSMap :=
  match type with
  | Some t => if truthy_string t then countInto typeMap t else typeMap
  | None => typeMap
  end.

(** [type.charAt(0).toUpperCase() + type.slice(1)] *)
Definition capitalize (type : string) : string :=
  toUpperCase (charAt0 type) +:+ slice1 type.

Definition typeOptions (display : string → string) (typeMap : JSMap)
  : list FilterOption :=
  (fun '(type, count) =>
     {| value := type; label := display type; count := count |}) <$> typeMap.

(** The adapter each view hands to the table. *)
Definition infiniteLoader (filteredPLRs : list PipelineRunKind)
    (getNextPage : option (IO ())) (nextPageProps : NextPageProps)
  : Table.InfiniteLoaderProps :=
  {| Table.isRowLoaded := fun index =>
       match array_get filteredPLRs index with
       | Some _ => true
       | None => false
       end;
     Table.loadMoreRows :=
       if hasNextPage nextPageProps then
         if negb (isFetchingNextPage nextPageProps)
         then optional_call getNextPage
         else io_ret ()
       else io_ret ();
     Table.rowCount :=
       if hasNextPage nextPageProps
       then (length filteredPLRs + 1)%nat
       else length filteredPLRs |}.

(** [error ? (error as { code: number }).code : 404] *)
Definition errorCode (error : option FetchError) : option Z :=
  match error with
  | Some e => code e
  | None => Some 404
  end.

End Shared.

(** ** The commit tab *)

Module CommitsPipelineRunTab.
Section View.
Context `{Collaborators}.

Definition getOptions (data : list PipelineRunKind)
  : completion (list FilterOption) :=
  typeMap ← forEach (fun typeMap plr =>
                       type ← typeLabel plr;
                       Normal (countType typeMap type)) data [];
  Normal (typeOptions capitalize typeMap).

Definition filterFn (item : PipelineRunKind) (value : option (list string))
  : completion bool :=
  match value with
  | None | Some [] => Normal true
  | Some value => runType ← typeLabel item; Normal (includes value runType)
  end.

Definition filterConfigs : list FilterConfig :=
  [searchConfig; statusConfig; multiSelect "type" "Type" getOptions filterFn].

Definition fetched : PipelineRunsResult :=
  usePipelineRunsForCommit useNamespace
    (applicationName useParams) (commitName useParams).

(** [usePLRVulnerabilities(isFiltered ? filteredPLRs : pipelineRuns)] *)
Definition vulnerabilities (fd : FilteredData) : PLRVulnerabilities :=
  usePLRVulnerabilities
    (if isFiltered fd then Some (filteredData fd) else pipelineRuns fetched).

(** The props of [<Table>]. *)
Definition table (fd : FilteredData) : Table.Props :=
  let EmptyMsg := FilteredEmptyStateMsg [] in
  let NoDataEmptyMsg := PipelineRunEmptyStateMsg (applicationName useParams) in
  {| Table.key :=
       Some (length (default [] (pipelineRuns fetched)),
             length (fetchedPipelineRuns (vulnerabilities fd)));
     Table.unfilteredData := default [] (pipelineRuns fetched);
     Table.data := filteredData fd;
     Table.loaded := isFetchingNextPage (nextPage fetched) || loaded fetched;
     Table.customData := vulnerabilities fd;
     Table.EmptyMsg := if isFiltered fd then EmptyMsg else NoDataEmptyMsg;
     Table.NoDataEmptyMsg := Some NoDataEmptyMsg;
     Table.isInfiniteLoading := true;
     Table.infiniteLoaderProps :=
       infiniteLoader (filteredData fd) (getNextPage fetched)
         (nextPage fetched) |}.

(** The component. *)
Definition render : completion Element :=
  let pipelineRuns := pipelineRuns fetched in
  fd ← useFilteredData (default [] pipelineRuns) filterConfigs;
  match error fetched with
  | Some _ =>
      let httpError := HttpError_fromCode (errorCode (error fetched)) in
      Normal (ErrorEmptyState httpError "Unable to load pipeline runs"
                (if (0 <? String.length (message httpError))%nat
                 then message httpError
                 else "Something went wrong"))
  | None =>
      if loaded fetched
         && match pipelineRuns with
            | None => true
            | Some l => (length l =? 0)%nat
            end
      then Normal (PipelineRunEmptyState (applicationName useParams))
      else
        Normal (Fragment [
          Title "Pipeline runs";
          Fragment (
            (if isFiltered fd
                || match pipelineRuns with
                   | Some l => (0 <? length l)%nat
                   | None => false
                   end
             then [PipelineRunsFilterToolbar filterConfigs
                     (default [] pipelineRuns) "commits-pipeline-runs-filter"]
             else [])
            ++ [TableElement (table fd)]
            ++ (if isFetchingNextPage (nextPage fetched)
                then [Spinner "Loading more pipeline runs"]
                else []))])
  end.

End View.
End CommitsPipelineRunTab.

(** ** The application pipeline-run list view *)

Module PipelineRunsListView.

Record Props : Type := {
  applicationName : string;
  componentName : option string;
  customFilter : option (PipelineRunKind → bool);
}.

Section View.
Context `{Collaborators}.
Variable props : Props.

Definition getOptions (data : list PipelineRunKind)
  : completion (list FilterOption) :=
  let typeMap :=
    fold_left (fun typeMap plr => countType typeMap (typeLabel_opt plr))
      data [] in
  Normal (typeOptions capitalize typeMap).

Definition filterFn (item : PipelineRunKind) (value : option (list string))
  : completion bool :=
  match value with
  | None | Some [] => Normal true
  | Some value => Normal (includes value (typeLabel_opt item))
  end.

Definition filterConfigs : list FilterConfig :=
  [searchConfig; statusConfig; multiSelect "type" "Type" getOptions filterFn].

(** [searchParams.get('name') || ''] *)
Definition name : string := default "" (params_get useSearchParams "name").

Definition selector : PipelineRunSelector :=
  let application := (useApplication useNamespace (applicationName props)).1 in
  {| filterByCreationTimestampAfter :=
       a ← application; m ← application_metadata a; creationTimestamp m;
     filterByName := if truthy_string name then Some name else None;
     matchLabels :=
       match componentName props with
       | Some c =>
           if truthy_string c
           then <[COMPONENT := c]> {[APPLICATION := applicationName props]}
           else {[APPLICATION := applicationName props]}
       | None => {[APPLICATION := applicationName props]}
       end |}.

Definition fetched : PipelineRunsResult :=
  let applicationLoaded :=
    (useApplication useNamespace (applicationName props)).2 in
  usePipelineRuns (if applicationLoaded then Some useNamespace else None)
    selector.

(** [(a, b) => b.status?.startTime?.localeCompare(a.status?.startTime)];
    [localeCompare] reads an [undefined] argument as the string
    ["undefined"]. *)
Definition compareStartTime (a b : PipelineRunKind) : option Z :=
  match status_startTime b with
  | Some tb => Some (localeCompare tb (default "undefined" (status_startTime a)))
  | None => None
  end.

Definition sortedPipelineRuns : list PipelineRunKind :=
  match pipelineRuns fetched with
  | None => []
  | Some pipelineRuns =>
      if hasToSorted then Array_sort compareStartTime pipelineRuns
      else Array_sort compareStartTime pipelineRuns
  end.

Definition baseFilteredRuns : list PipelineRunKind :=
  match customFilter props with
  | Some customFilter => List.filter customFilter sortedPipelineRuns
  | None => sortedPipelineRuns
  end.

(** [usePLRVulnerabilities(name ? filteredPLRs : sortedPipelineRuns)] *)
Definition vulnerabilities (fd : FilteredData) : PLRVulnerabilities :=
  usePLRVulnerabilities
    (Some (if truthy_string name then filteredData fd else sortedPipelineRuns)).

(** The props of [<Table>]. *)
Definition table (fd : FilteredData) : Table.Props :=
  let EmptyMsg := FilteredEmptyStateMsg [] in
  let NoDataEmptyMsg := PipelineRunEmptyStateMsg (applicationName props) in
  {| Table.key := None;
     Table.unfilteredData := sortedPipelineRuns;
     Table.data := filteredData fd;
     Table.loaded := isFetchingNextPage (nextPage fetched) || loaded fetched;
     Table.customData := vulnerabilities fd;
     Table.EmptyMsg := if isFiltered fd then EmptyMsg else NoDataEmptyMsg;
     Table.NoDataEmptyMsg := None;
     Table.isInfiniteLoading := true;
     Table.infiniteLoaderProps :=
       infiniteLoader (filteredData fd) (getNextPage fetched)
         (nextPage fetched) |}.

(** The component. *)
Definition render : completion Element :=
  fd ← useFilteredData baseFilteredRuns filterConfigs;
  match error fetched with
  | Some _ =>
      let httpError := HttpError_fromCode (errorCode (error fetched)) in
      Normal (ErrorEmptyState httpError "Unable to load pipeline runs"
                (if negb (String.length (message httpError) =? 0)%nat
                 then message httpError
                 else "Something went wrong"))
  | None =>
      Normal (Fragment (
        (if isFiltered fd || (0 <? length sortedPipelineRuns)%nat
         then [PipelineRunsFilterToolbar filterConfigs baseFilteredRuns
                 "pipeline-runs-filter"]
         else [])
        ++ [TableElement (table fd)]
        ++ (if isFetchingNextPage (nextPage fetched)
            then [Spinner "Loading more pipeline runs"]
            else [])))
  end.

End View.
End PipelineRunsListView.

(** ** The snapshot pipeline-runs list *)

Module SnapshotPipelineRunsList.

Record Props : Type := {
  snapshotPipelineRuns : option (list PipelineRunKind);
  applicationName : string;
  loaded : bool;
  getNextPage : option (IO ());
  customFilter : option (PipelineRunKind → bool);
  nextPageProps : NextPageProps;
}.

Section View.
Context `{Collaborators}.
Variable props : Props.

Definition getOptions (data : list PipelineRunKind)
  : completion (list FilterOption) :=
  typeMap ← forEach (fun typeMap plr =>
                       type ← typeLabel plr;
                       Normal (countType typeMap type)) data [];
  Normal (typeOptions (fun type => type) typeMap).

Definition filterFn (item : PipelineRunKind) (value : option (list string))
  : completion bool :=
  match value with
  | None | Some [] => Normal true
  | Some value => runType ← typeLabel item; Normal (includes value runType)
  end.

Definition filterConfigs : list FilterConfig :=
  [searchConfig; statusConfig; multiSelect "type" "Type" getOptions filterFn].

(** [customFilter ? snapshotPipelineRuns.filter(customFilter)
                  : snapshotPipelineRuns] *)
Definition filteredByCustomFilter
  : completion (option (list PipelineRunKind)) :=
  match customFilter props with
  | Some customFilter =>
      match snapshotPipelineRuns props with
      | Some runs => Normal (Some (List.filter customFilter runs))
      | None => ThrowTypeError
      end
  | None => Normal (snapshotPipelineRuns props)
  end.

(** [usePLRVulnerabilities(isFiltered ? filteredPLRs : snapshotPipelineRuns)] *)
Definition vulnerabilities (fd : FilteredData) : PLRVulnerabilities :=
  usePLRVulnerabilities
    (if isFiltered fd then Some (filteredData fd)
     else snapshotPipelineRuns props).

Definition handleClearFilters : URLSearchParams :=
  fold_left (fun newParams config =>
               match config with
               | search _ searchAttributes =>
                   fold_left (fun newParams attr =>
                                params_delete newParams attr.1)
                     (attributes searchAttributes) newParams
               | multiSelect param _ _ _ => params_delete newParams param
               end)
    filterConfigs useSearchParams.

(** The props of [<Table>], rendered once [snapshotPipelineRuns] is known
    to be a non-empty array [runs]. *)
Definition table (runs : list PipelineRunKind) (fd : FilteredData)
  : Table.Props :=
  let EmptyMsg := FilteredEmptyStateMsg handleClearFilters in
  let NoDataEmptyMsg := PipelineRunEmptyStateMsg (applicationName props) in
  {| Table.key :=
       Some (length runs, length (fetchedPipelineRuns (vulnerabilities fd)));
     Table.unfilteredData := runs;
     Table.data := filteredData fd;
     Table.loaded := true;
     Table.customData := vulnerabilities fd;
     Table.EmptyMsg := if isFiltered fd then EmptyMsg else NoDataEmptyMsg;
     Table.NoDataEmptyMsg := None;
     Table.isInfiniteLoading := true;
     Table.infiniteLoaderProps :=
       infiniteLoader (filteredData fd) (getNextPage props)
         (nextPageProps props) |}.

(** The component. *)
Definition render : completion Element :=
  byCustomFilter ← filteredByCustomFilter;
  fd ← useFilteredData (default [] byCustomFilter) filterConfigs;
  if negb (loaded props) then Normal (Spinner "snapshot-plr-loading")
  else
    match snapshotPipelineRuns props with
    | None | Some [] => Normal (PipelineRunEmptyState (applicationName props))
    | Some ((_ :: _) as runs) =>
        Normal (Fragment (
          [Title "Pipeline runs"]
          ++ (if isFiltered fd || (0 <? length runs)%nat
              then [PipelineRunsFilterToolbar filterConfigs
                      (default [] byCustomFilter)
                      "snapshot-pipeline-runs-filter"]
              else [])
          ++ [TableElement (table runs fd)]))
    end.

End View.
End SnapshotPipelineRunsList.

(** ** The filtered-data hook *)

Fixpoint filterM {A} (f : A → completion bool) (l : list A)
  : completion (list A) :=
  match l with
  | [] => Normal []
  | x :: l' =>
      keep ← f x;
      rest ← filterM f l';
      Normal (if keep : bool then x :: rest else rest)
  end.

(** [t] occurs in [s]. *)
Fixpoint isSubstring (t s : string) : bool :=
  String.prefix t s
  || match s with
     | String _ s' => isSubstring t s'
     | EmptyString => false
     end.

Module FilteredDataHook.
Section Model.
(** The URL query state, the attribute selected in the toolbar, and the
    field of a record that backs an attribute. *)
Variable searchParams : URLSearchParams.
Variable activeAttribute : string.
Variable attributeValue : string → PipelineRunKind → string.
Variable lowerCase : string → string.

Definition holdsValue (k : string) : bool :=
  existsb truthy_string (params_getAll searchParams k).

Definition configActive (c : FilterConfig) : bool :=
  match c with
  | search _ sa => existsb (fun attr => holdsValue attr.1) (attributes sa)
  | multiSelect param _ _ _ => holdsValue param
  end.

Definition passes (c : FilterConfig) (r : PipelineRunKind) : completion bool :=
  match c with
  | search _ sa =>
      if configActive c then
        let term := default "" (params_get searchParams activeAttribute) in
        Normal (isSubstring (lowerCase term)
                  (lowerCase (attributeValue activeAttribute r)))
      else Normal true
  | multiSelect param _ _ filterFn =>
      filterFn r (Some (params_getAll searchParams param))
  end.

Definition passesAll (cs : list FilterConfig) (r : PipelineRunKind)
  : completion bool :=
  forEach (fun ok c => if ok : bool then passes c r else Normal false) cs true.

(** Modelled from the spec: the hook [useFilteredData] (imported from
    [Filter/generic]; these files hold only its call sites).  A record
    survives iff it satisfies every configured filter: a [multiSelect]
    entry tests it with [filterFn] on the values of its [param]; a
    [search] entry passes it when no attribute holds a term, or when
    the term of the selected attribute occurs, case-insensitively, in
    that attribute's value.  [isFiltered] is true iff at least one
    configured parameter holds a non-empty value. *)
Definition useFilteredData (data : list PipelineRunKind)
    (configs : list FilterConfig) : completion FilteredData :=
  kept ← filterM (passesAll configs) data;
  Normal {| filteredData := kept; isFiltered := existsb configActive configs |}.

End Model.
End FilteredDataHook.

(** ** A concrete set of collaborators

    Used to run the views on examples: the hook above, a byte-wise
    [localeCompare], ASCII case mapping, and an enrichment whose
    [fetchedPipelineRuns] mirrors the names of its input. *)
Module Fixture.

Definition upper_ascii (c : Ascii.ascii) : Ascii.ascii :=
  let n := Ascii.nat_of_ascii c in
  if ((97 <=? n) && (n <=? 122))%nat then Ascii.ascii_of_nat (n - 32) else c.

Definition lower_ascii (c : Ascii.ascii) : Ascii.ascii :=
  let n := Ascii.nat_of_ascii c in
  if ((65 <=? n) && (n <=? 90))%nat then Ascii.ascii_of_nat (n + 32) else c.

Fixpoint map_string (f : Ascii.ascii → Ascii.ascii) (s : string) : string :=
  match s with
  | EmptyString => EmptyString
  | String c s' => String (f c) (map_string f s')
  end.

Definition compare_code_units (a b : string) : Z :=
  match String.compare a b with
  | Lt => -1
  | Eq => 0
  | Gt => 1
  end.

Definition fromCode (c : option Z) : HttpError :=
  match c with
  | Some 404 => {| message := "Not Found" |}
  | Some 403 => {| message := "Forbidden" |}
  | Some 500 => {| message := "Internal Server Error" |}
  | _ => {| message := "" |}
  end.

Definition metadata_name (r : PipelineRunKind) : string :=
  default "" (m ← metadata r; name m).

Definition collaborators (searchParams : URLSearchParams)
    (fetch : PipelineRunsResult) : Collaborators :=
  {| PIPELINE_TYPE := "pipelines.appstudio.openshift.io/type";
     APPLICATION := "appstudio.openshift.io/application";
     COMPONENT := "appstudio.openshift.io/component";
     pipelineRunStatus := fun _ => "Succeeded";
     HttpError_fromCode := fromCode;
     toUpperCase := map_string upper_ascii;
     toLowerCase := map_string lower_ascii;
     localeCompare := compare_code_units;
     hasToSorted := true;
     useParams := {| applicationName := "my-app"; commitName := "abc123" |};
     useNamespace := "my-ns";
     useSearchParams := searchParams;
     useApplication := fun _ _ =>
       (Some {| application_metadata := None |}, true);
     usePipelineRuns := fun _ _ => fetch;
     usePipelineRunsForCommit := fun _ _ _ => fetch;
     useFilteredData :=
       FilteredDataHook.useFilteredData searchParams "name"
         (fun _ => metadata_name) (map_string lower_ascii);
     usePLRVulnerabilities := fun runs =>
       {| fetchedPipelineRuns := metadata_name <$> default [] runs |} |}.

Definition run (n : string) (type : option string) (start : option string)
  : PipelineRunKind :=
  {| metadata :=
       Some {| name := Some n;
               labels :=
                 Some match type with
                      | Some t =>
                          {[ "pipelines.appstudio.openshift.io/type" := t ]}
                      | None => ∅
                      end;
               creationTimestamp := None |};
     status := Some {| startTime := start |} |}.

(** The three records of the sorting example: January, March,
    February. *)
Definition three_runs : list PipelineRunKind :=
  [run "r1" (Some "build") (Some "2024-01-01T00:00:00Z");
   run "r2" (Some "build") (Some "2024-03-01T00:00:00Z");
   run "r3" (Some "test") (Some "2024-02-01T00:00:00Z")].

(** Two more records: one without a type label, one whose type label is
    the empty string. *)
Definition five_runs : list PipelineRunKind :=
  three_runs
  ++ [run "r4" None (Some "2024-04-01T00:00:00Z");
      run "r5" (Some "") None].

Definition listProps : PipelineRunsListView.Props :=
  {| PipelineRunsListView.applicationName := "my-app";
     PipelineRunsListView.componentName := None;
     PipelineRunsListView.customFilter := None |}.

(** A snapshot list whose caller keeps every run but ["r2"]. *)
Definition snapshotProps (runs : list PipelineRunKind)
  : SnapshotPipelineRunsList.Props :=
  {| SnapshotPipelineRunsList.snapshotPipelineRuns := Some runs;
     SnapshotPipelineRunsList.applicationName := "my-app";
     SnapshotPipelineRunsList.loaded := true;
     SnapshotPipelineRunsList.getNextPage := None;
     SnapshotPipelineRunsList.customFilter :=
       Some (fun r => negb (String.eqb (metadata_name r) "r2"));
     SnapshotPipelineRunsList.nextPageProps :=
       {| isFetchingNextPage := false; hasNextPage := false |} |}.

Definition failed (e : FetchError) : PipelineRunsResult :=
  {| pipelineRuns := None;
     loaded := true;
     error := Some e;
     getNextPage := None;
     nextPage := {| isFetchingNextPage := false; hasNextPage := false |} |}.

Definition fetchOf (runs : list PipelineRunKind) (more : bool)
  : PipelineRunsResult :=
  {| pipelineRuns := Some runs;
     loaded := true;
     error := None;
     getNextPage := Some (io_emit NextPageRequested);
     nextPage := {| isFetchingNextPage := false; hasNextPage := more |} |}.

(** A status filter in the URL; nothing fetched. *)
Definition filteredNoRuns : Collaborators :=
  collaborators [("status", "Failed")] (fetchOf [] false).

(** The same filter over three fetched runs, none of which has failed. *)
Definition filteredThreeRuns : Collaborators :=
  collaborators [("status", "Failed")]
    (fetchOf three_runs false).

(** No filter in the URL. *)
Definition unfiltered : Collaborators :=
  collaborators [] (fetchOf [] false).

(** A snapshot list whose caller rejects every run. *)
Definition rejectAll : SnapshotPipelineRunsList.Props :=
  {| SnapshotPipelineRunsList.snapshotPipelineRuns := Some three_runs;
     SnapshotPipelineRunsList.applicationName := "my-app";
     SnapshotPipelineRunsList.loaded := true;
     SnapshotPipelineRunsList.getNextPage := None;
     SnapshotPipelineRunsList.customFilter := Some (fun _ => false);
     SnapshotPipelineRunsList.nextPageProps :=
       {| isFetchingNextPage := false; hasNextPage := false |} |}.

(** The application list view with a caller that keeps every run but
    ["r2"]. *)
Definition listPropsWithout_r2 : PipelineRunsListView.Props :=
  {| PipelineRunsListView.applicationName := "my-app";
     PipelineRunsListView.componentName := None;
     PipelineRunsListView.customFilter :=
       Some (fun r => negb (String.eqb (metadata_name r) "r2")) |}.

(** A snapshot list that is still loading: no runs yet, with and without
    a [customFilter]. *)
Definition loadingProps (customFilter : option (PipelineRunKind → bool))
  : SnapshotPipelineRunsList.Props :=
  {| SnapshotPipelineRunsList.snapshotPipelineRuns := None;
     SnapshotPipelineRunsList.applicationName := "my-app";
     SnapshotPipelineRunsList.loaded := false;
     SnapshotPipelineRunsList.getNextPage := None;
     SnapshotPipelineRunsList.customFilter := customFilter;
     SnapshotPipelineRunsList.nextPageProps :=
       {| isFetchingNextPage := false; hasNextPage := false |} |}.

(** A fetch with a next page on its way. *)
Definition fetchingMore (runs : list PipelineRunKind) : PipelineRunsResult :=
  {| pipelineRuns := Some runs;
     loaded := true;
     error := None;
     getNextPage := Some (io_emit NextPageRequested);
     nextPage := {| isFetchingNextPage := true; hasNextPage := true |} |}.

(** A query state with filter entries and entries of other components. *)
Definition mixedParams : URLSearchParams :=
  [("name", "r1"); ("search", "x"); ("status", "Failed"); ("page", "2");
   ("status", "Running"); ("type", "build")].

(** A record that has [metadata] but no [labels]. *)
Definition bare : PipelineRunKind :=
  {| metadata := Some {| name := Some "r0"; labels := None;
                         creationTimestamp := None |};
     status := None |}.

End Fixture.

(** ** Predicates of the statements *)

(** The row-count convention of an adapter over [filteredPLRs]. *)
Definition reports (filteredPLRs : list PipelineRunKind) (more : bool)
    (adapter : Table.InfiniteLoaderProps) : Prop :=
  Table.rowCount adapter
    = (if more then length filteredPLRs + 1 else length filteredPLRs)%nat
  ∧ ∀ i : Z,
      Table.isRowLoaded adapter i = true
      ↔ 0 ≤ i < Z.of_nat (length filteredPLRs).

(** The guard of [loadMoreRows]: the call [getNextPage?.()] when more pages
    remain and none is being fetched, and nothing at all otherwise. *)
Definition guards (getNextPage : option (IO ())) (nextPageProps : NextPageProps)
    (adapter : Table.InfiniteLoaderProps) : Prop :=
  Table.loadMoreRows adapter
  = if hasNextPage nextPageProps && negb (isFetchingNextPage nextPageProps)
    then optional_call getNextPage
    else io_ret ().

(** The body of the error state for a mapped error. *)
Definition errorBody (httpError : HttpError) : string :=
  if String.eqb (message httpError) "" then "Something went wrong"
  else message httpError.

(** [x] may stand before [y] for the comparator: the engine reads its
    result as not positive. *)
Definition before {A} (comparefn : A → A → option Z) (x y : A) : Prop :=
  SortCompare comparefn x y ≤ 0.

(** [x] may stand before [y] in descending order of [status.startTime]:
    both have one and [y]'s does not compare after [x]'s. *)
Definition startsNoEarlier `{Collaborators} (x y : PipelineRunKind) : Prop :=
  ∃ tx ty,
    status_startTime x = Some tx ∧ status_startTime y = Some ty
    ∧ localeCompare ty tx ≤ 0.

(** The record started at [t]. *)
Definition sameStart (t : string) (plr : PipelineRunKind) : bool :=
  bool_decide (status_startTime plr = Some t).

(** The empty state a table shows for an empty [data]: the filtered-empty
    one, with its clear-filters action, when a generic filter is active,
    and the "no pipeline runs" one otherwise. *)
Definition emptyMsgFor (isFiltered : bool) (onClearFilters : URLSearchParams)
    (applicationName : string) : EmptyStateComponent :=
  if isFiltered then FilteredEmptyStateMsg onClearFilters
  else PipelineRunEmptyStateMsg applicationName.

(** The count a map holds for a key, [0] when the key is absent. *)
Definition cnt (m : JSMap) (k : string) : nat := default 0%nat (map_get m k).

(** A type label counts for the option [v]. *)
Definition countsFor (v : string) (type : option string) : bool :=
  truthy type && bool_decide (type = Some v).

(** A record that has [metadata] and, in it, [labels].  The commit tab
    and the snapshot list read [plr?.metadata.labels[...]] and so need
    both; the application view reads [plr?.metadata?.labels?.[...]] and
    needs neither.  (The declaration of [PipelineRunKind] is imported and
    not part of these files.) *)
Definition has_labels (plr : PipelineRunKind) : Prop :=
  ∃ m ls, metadata plr = Some m ∧ labels m = Some ls.

(** What the options of the type facet are to a dataset: one option per
    distinct non-empty value of the type label, each counting the records
    that carry its value. *)
Definition counts_types `{Collaborators} (data : list PipelineRunKind)
    (opts : list FilterOption) : Prop :=
  NoDup (value <$> opts)
  ∧ (∀ v, v ∈ value <$> opts
          ↔ v ≠ "" ∧ ∃ plr, plr ∈ data ∧ typeLabel_opt plr = Some v)
  ∧ (∀ o, o ∈ opts →
          count o
          = length (List.filter
                      (λ plr, bool_decide (typeLabel_opt plr = Some (value o)))
                      data))
  ∧ sum_list (count <$> opts)
    = length (List.filter (λ plr, truthy (typeLabel_opt plr)) data).

(** ** Accessors and predicates for the further properties *)

(** [config.param] *)
Definition config_param (c : FilterConfig) : string :=
  match c with
  | search param _ => param
  | multiSelect param _ _ _ => param
  end.

(** [config.getOptions] and [config.filterFn]; a [search] entry has
    neither. *)
Definition config_getOptions (c : FilterConfig)
  : option (list PipelineRunKind → completion (list FilterOption)) :=
  match c with
  | search _ _ => None
  | multiSelect _ _ getOptions _ => Some getOptions
  end.

Definition config_filterFn (c : FilterConfig)
  : option (PipelineRunKind → option (list string) → completion bool) :=
  match c with
  | search _ _ => None
  | multiSelect _ _ _ filterFn => Some filterFn
  end.

(** The entry of a configuration list that is bound to a URL parameter. *)
Definition facet (configs : list FilterConfig) (param : string)
  : option FilterConfig :=
  List.find (λ c, String.eqb (config_param c) param) configs.

(** What the options of a facet are to a dataset, for a facet that reads
    the value [key plr] off a record: one option per distinct non-empty
    value, each counting the records that have it, the counts adding up
    to the number of records with a non-empty value. *)
Definition counts_by (key : PipelineRunKind → option string)
    (data : list PipelineRunKind) (opts : list FilterOption) : Prop :=
  NoDup (value <$> opts)
  ∧ (∀ v, v ∈ value <$> opts ↔ v ≠ "" ∧ ∃ plr, plr ∈ data ∧ key plr = Some v)
  ∧ (∀ o, o ∈ opts →
          count o
          = length (List.filter
                      (λ plr, bool_decide (key plr = Some (value o))) data))
  ∧ sum_list (count <$> opts)
    = length (List.filter (λ plr, truthy (key plr)) data).

(** The options are listed in the order in which their values first occur
    in [keys], the values read off the records of the dataset in turn:
    when [u] is listed before [v], some occurrence of [u] has no occurrence
    of [v] at or before it. *)
Definition first_seen_order (keys : list (option string))
    (values : list string) : Prop :=
  ∀ i j u v,
    (i < j)%nat → values !! i = Some u → values !! j = Some v →
    ∃ n, keys !! n = Some (Some u)
         ∧ ∀ m, (m ≤ n)%nat → keys !! m ≠ Some (Some v).

(** The filter toolbar a view returns, if it returns one: its
    [filterConfigs], [data] and [dataTestId]. *)
Fixpoint toolbarOf (e : Element)
  : option (list FilterConfig * list PipelineRunKind * string) :=
  match e with
  | PipelineRunsFilterToolbar filterConfigs data dataTestId =>
      Some (filterConfigs, data, dataTestId)
  | Fragment children =>
      (fix first (l : list Element) :=
         match l with
         | [] => None
         | c :: l' =>
             match toolbarOf c with
             | Some t => Some t
             | None => first l'
             end
         end) children
  | _ => None
  end.

(** The query keys the filters of a view own: the attribute keys of a
    [search] entry, the [param] of a [multiSelect] entry. *)
Definition config_keys (c : FilterConfig) : list string :=
  match c with
  | search _ searchAttributes => fst <$> attributes searchAttributes
  | multiSelect param _ _ _ => [param]
  end.

(** The option of the snapshot list for an option of the other views: the
    display label is the value itself. *)
Definition rawLabel (o : FilterOption) : FilterOption :=
  {| value := value o; label := value o; count := count o |}.

(** The labels of the spinners a view returns. *)
Fixpoint spinnersOf (e : Element) : list string :=
  match e with
  | Spinner label => [label]
  | Fragment children =>
      (fix all (l : list Element) : list string :=
         match l with
         | [] => []
         | c :: l' => spinnersOf c ++ all l'
         end) children
  | _ => []
  end.

(** * Properties *)

(** Evaluates the hook of the fixture in [Hfd : useFilteredData .. = Normal fd]
    and replaces [fd] by its value. *)
Ltac hook_result Hfd :=
  vm_compute in Hfd;
  let Heq := fresh in injection Hfd as Heq; subst.

(** ** What each view passes to the table *)

Section TableOfView.
Context `{Collaborators}.

Lemma CommitsPipelineRunTab_table el p :
  CommitsPipelineRunTab.render = Normal el → tableOf el = Some p →
  ∃ fd,
    useFilteredData
      (default [] (pipelineRuns CommitsPipelineRunTab.fetched))
      CommitsPipelineRunTab.filterConfigs = Normal fd
    ∧ error CommitsPipelineRunTab.fetched = None
    ∧ p = CommitsPipelineRunTab.table fd.
Proof.
  unfold CommitsPipelineRunTab.render.
  destruct (useFilteredData _ _) as [fd|] eqn:Hfd; simpl; [|done].
  destruct (error CommitsPipelineRunTab.fetched); [by intros [= <-]|].
  destruct (loaded _ && _); [by intros [= <-]|].
  intros [= <-]. simpl.
  destruct (isFiltered fd || _); simpl; intros [= <-]; eauto.
Qed.

Lemma PipelineRunsListView_table props el p :
  PipelineRunsListView.render props = Normal el → tableOf el = Some p →
  ∃ fd,
    useFilteredData (PipelineRunsListView.baseFilteredRuns props)
      PipelineRunsListView.filterConfigs = Normal fd
    ∧ error (PipelineRunsListView.fetched props) = None
    ∧ p = PipelineRunsListView.table props fd.
Proof.
  unfold PipelineRunsListView.render.
  destruct (useFilteredData _ _) as [fd|] eqn:Hfd; simpl; [|done].
  destruct (error _); [by intros [= <-]|].
  intros [= <-]. simpl.
  destruct (isFiltered fd || _); simpl; intros [= <-]; eauto.
Qed.

Lemma SnapshotPipelineRunsList_table props el p :
  SnapshotPipelineRunsList.render props = Normal el → tableOf el = Some p →
  ∃ byCustomFilter fd runs,
    SnapshotPipelineRunsList.filteredByCustomFilter props
      = Normal byCustomFilter
    ∧ useFilteredData (default [] byCustomFilter)
        SnapshotPipelineRunsList.filterConfigs = Normal fd
    ∧ SnapshotPipelineRunsList.snapshotPipelineRuns props = Some runs
    ∧ runs ≠ []
    ∧ SnapshotPipelineRunsList.loaded props = true
    ∧ p = SnapshotPipelineRunsList.table props runs fd.
Proof.
  unfold SnapshotPipelineRunsList.render.
  destruct (SnapshotPipelineRunsList.filteredByCustomFilter props)
    as [by_custom|] eqn:Hc; simpl; [|done].
  destruct (useFilteredData _ _) as [fd|] eqn:Hfd; simpl; [|done].
  destruct (SnapshotPipelineRunsList.loaded props); simpl;
    [|by intros [= <-]].
  destruct (SnapshotPipelineRunsList.snapshotPipelineRuns props)
    as [[|r runs]|]; [by intros [= <-]| |by intros [= <-]].
  intros [= <-]. simpl.
  destruct (isFiltered fd || _); simpl; intros [= <-];
    by exists by_custom, fd, (r :: runs).
Qed.

Lemma CommitsPipelineRunTab_renders_table fd :
  useFilteredData
    (default [] (pipelineRuns CommitsPipelineRunTab.fetched))
    CommitsPipelineRunTab.filterConfigs = Normal fd →
  error CommitsPipelineRunTab.fetched = None →
  loaded CommitsPipelineRunTab.fetched = false
  ∨ default [] (pipelineRuns CommitsPipelineRunTab.fetched) ≠ [] →
  ∃ el,
    CommitsPipelineRunTab.render = Normal el
    ∧ tableOf el = Some (CommitsPipelineRunTab.table fd).
Proof.
  intros Hfd He Hruns. unfold CommitsPipelineRunTab.render.
  rewrite Hfd. simpl. rewrite He.
  assert (loaded CommitsPipelineRunTab.fetched
          && match pipelineRuns CommitsPipelineRunTab.fetched with
             | None => true
             | Some l => (length l =? 0)%nat
             end = false) as ->.
  { destruct Hruns as [-> | Hruns]; [done|].
    destruct (pipelineRuns CommitsPipelineRunTab.fetched) as [[|r l]|];
      simpl in *; try done; apply andb_false_r. }
  eexists. split; [reflexivity|]. simpl.
  by destruct (isFiltered fd || _).
Qed.

Lemma PipelineRunsListView_renders_table props fd :
  useFilteredData (PipelineRunsListView.baseFilteredRuns props)
    PipelineRunsListView.filterConfigs = Normal fd →
  error (PipelineRunsListView.fetched props) = None →
  ∃ el,
    PipelineRunsListView.render props = Normal el
    ∧ tableOf el = Some (PipelineRunsListView.table props fd).
Proof.
  intros Hfd He. unfold PipelineRunsListView.render.
  rewrite Hfd. simpl. rewrite He.
  eexists. split; [reflexivity|]. simpl.
  by destruct (isFiltered fd || _).
Qed.

Lemma SnapshotPipelineRunsList_renders_table props runs byCustomFilter fd :
  SnapshotPipelineRunsList.loaded props = true →
  SnapshotPipelineRunsList.snapshotPipelineRuns props = Some runs →
  runs ≠ [] →
  SnapshotPipelineRunsList.filteredByCustomFilter props
    = Normal byCustomFilter →
  useFilteredData (default [] byCustomFilter)
    SnapshotPipelineRunsList.filterConfigs = Normal fd →
  ∃ el,
    SnapshotPipelineRunsList.render props = Normal el
    ∧ tableOf el = Some (SnapshotPipelineRunsList.table props runs fd).
Proof.
  intros Hl Hs Hne Hc Hfd. unfold SnapshotPipelineRunsList.render.
  rewrite Hc. simpl. rewrite Hfd. simpl. rewrite Hl, Hs. simpl.
  destruct runs as [|r runs]; [done|].
  eexists. split; [reflexivity|]. simpl.
  by destruct (isFiltered fd || _).
Qed.

End TableOfView.

(** ** Infinite loading *)

Lemma array_get_Some {A} (arr : list A) (i : Z) :
  is_Some (array_get arr i) ↔ 0 ≤ i < Z.of_nat (length arr).
Proof.
  unfold array_get. destruct (Z.ltb_spec i 0) as [Hi|Hi].
  - split; [intros [x [=]] | lia].
  - rewrite lookup_lt_is_Some. lia.
Qed.

Lemma isRowLoaded_infiniteLoader filteredPLRs getNextPage nextPageProps i :
  Table.isRowLoaded (infiniteLoader filteredPLRs getNextPage nextPageProps) i
    = true
  ↔ 0 ≤ i < Z.of_nat (length filteredPLRs).
Proof.
  rewrite <- array_get_Some. simpl.
  destruct (array_get filteredPLRs i); split; try done.
Qed.

Lemma infiniteLoader_reports filteredPLRs getNextPage nextPageProps :
  reports filteredPLRs (hasNextPage nextPageProps)
    (infiniteLoader filteredPLRs getNextPage nextPageProps).
Proof.
  split; [done|]. intros i. apply isRowLoaded_infiniteLoader.
Qed.

Lemma infiniteLoader_guards filteredPLRs getNextPage nextPageProps :
  guards getNextPage nextPageProps
    (infiniteLoader filteredPLRs getNextPage nextPageProps).
Proof.
  unfold guards. simpl.
  by destruct (hasNextPage nextPageProps), (isFetchingNextPage nextPageProps).
Qed.

Section InfiniteLoading.
Context `{Collaborators}.

(** C1.  Each of the three list views, whenever it reaches its table
    (no fetch error; for the commit tab not the loaded-and-empty total;
    for the snapshot list loaded with a non-empty total), returns a table
    whose rows are the filtered collection the hook returned and whose
    infinite-loading adapter is built over that collection: [rowCount] is
    its length plus one when [hasNextPage] is true and its length
    otherwise, and [isRowLoaded(i)] is true iff [i] is a valid index into
    it.  Conversely every table a view returns carries that adapter. *)
Theorem infinite_loader_row_count :
  (∀ fd,
     useFilteredData
       (default [] (pipelineRuns CommitsPipelineRunTab.fetched))
       CommitsPipelineRunTab.filterConfigs = Normal fd →
     error CommitsPipelineRunTab.fetched = None →
     loaded CommitsPipelineRunTab.fetched = false
     ∨ default [] (pipelineRuns CommitsPipelineRunTab.fetched) ≠ [] →
     ∃ el p,
       CommitsPipelineRunTab.render = Normal el
       ∧ tableOf el = Some p
       ∧ Table.isInfiniteLoading p = true
       ∧ Table.data p = filteredData fd
       ∧ reports (filteredData fd)
           (hasNextPage (nextPage CommitsPipelineRunTab.fetched))
           (Table.infiniteLoaderProps p))
  ∧ (∀ props fd,
       useFilteredData (PipelineRunsListView.baseFilteredRuns props)
         PipelineRunsListView.filterConfigs = Normal fd →
       error (PipelineRunsListView.fetched props) = None →
       ∃ el p,
         PipelineRunsListView.render props = Normal el
         ∧ tableOf el = Some p
         ∧ Table.isInfiniteLoading p = true
         ∧ Table.data p = filteredData fd
         ∧ reports (filteredData fd)
             (hasNextPage (nextPage (PipelineRunsListView.fetched props)))
             (Table.infiniteLoaderProps p))
  ∧ (∀ props runs byCustomFilter fd,
       SnapshotPipelineRunsList.loaded props = true →
       SnapshotPipelineRunsList.snapshotPipelineRuns props = Some runs →
       runs ≠ [] →
       SnapshotPipelineRunsList.filteredByCustomFilter props
         = Normal byCustomFilter →
       useFilteredData (default [] byCustomFilter)
         SnapshotPipelineRunsList.filterConfigs = Normal fd →
       ∃ el p,
         SnapshotPipelineRunsList.render props = Normal el
         ∧ tableOf el = Some p
         ∧ Table.isInfiniteLoading p = true
         ∧ Table.data p = filteredData fd
         ∧ reports (filteredData fd)
             (hasNextPage (SnapshotPipelineRunsList.nextPageProps props))
             (Table.infiniteLoaderProps p))
  ∧ (∀ el p,
       CommitsPipelineRunTab.render = Normal el → tableOf el = Some p →
       ∃ fd,
         useFilteredData
           (default [] (pipelineRuns CommitsPipelineRunTab.fetched))
           CommitsPipelineRunTab.filterConfigs = Normal fd
         ∧ Table.data p = filteredData fd
         ∧ reports (filteredData fd)
             (hasNextPage (nextPage CommitsPipelineRunTab.fetched))
             (Table.infiniteLoaderProps p))
  ∧ (∀ props el p,
       PipelineRunsListView.render props = Normal el → tableOf el = Some p →
       ∃ fd,
         useFilteredData (PipelineRunsListView.baseFilteredRuns props)
           PipelineRunsListView.filterConfigs = Normal fd
         ∧ Table.data p = filteredData fd
         ∧ reports (filteredData fd)
             (hasNextPage (nextPage (PipelineRunsListView.fetched props)))
             (Table.infiniteLoaderProps p))
  ∧ (∀ props el p,
       SnapshotPipelineRunsList.render props = Normal el →
       tableOf el = Some p →
       ∃ byCustomFilter fd,
         SnapshotPipelineRunsList.filteredByCustomFilter props
           = Normal byCustomFilter
         ∧ useFilteredData (default [] byCustomFilter)
             SnapshotPipelineRunsList.filterConfigs = Normal fd
         ∧ Table.data p = filteredData fd
         ∧ reports (filteredData fd)
             (hasNextPage (SnapshotPipelineRunsList.nextPageProps props))
             (Table.infiniteLoaderProps p)).
Proof.
  split_and!.
  - intros fd Hfd He Hruns.
    destruct (CommitsPipelineRunTab_renders_table fd Hfd He Hruns)
      as (el & Hr & Ht).
    exists el, (CommitsPipelineRunTab.table fd).
    split_and!; [done..|apply infiniteLoader_reports].
  - intros props fd Hfd He.
    destruct (PipelineRunsListView_renders_table props fd Hfd He)
      as (el & Hr & Ht).
    exists el, (PipelineRunsListView.table props fd).
    split_and!; [done..|apply infiniteLoader_reports].
  - intros props runs c fd Hl Hs Hne Hc Hfd.
    destruct (SnapshotPipelineRunsList_renders_table props runs c fd
                Hl Hs Hne Hc Hfd) as (el & Hr & Ht).
    exists el, (SnapshotPipelineRunsList.table props runs fd).
    split_and!; [done..|apply infiniteLoader_reports].
  - intros el p Hr Ht.
    destruct (CommitsPipelineRunTab_table el p Hr Ht) as (fd & Hfd & _ & ->).
    exists fd. split_and!; [done..|apply infiniteLoader_reports].
  - intros props el p Hr Ht.
    destruct (PipelineRunsListView_table props el p Hr Ht)
      as (fd & Hfd & _ & ->).
    exists fd. split_and!; [done..|apply infiniteLoader_reports].
  - intros props el p Hr Ht.
    destruct (SnapshotPipelineRunsList_table props el p Hr Ht)
      as (c & fd & runs & Hc & Hfd & _ & _ & _ & ->).
    exists c, fd. split_and!; [done..|apply infiniteLoader_reports].
Qed.

(** C2.  In each of the three list views, [loadMoreRows] is the call of
    the next-page trigger when [hasNextPage] is true and
    [isFetchingNextPage] is false, and does nothing for every other
    combination of the two flags. *)
Theorem load_more_rows_guard :
  (∀ el p,
     CommitsPipelineRunTab.render = Normal el → tableOf el = Some p →
     guards (getNextPage CommitsPipelineRunTab.fetched)
       (nextPage CommitsPipelineRunTab.fetched)
       (Table.infiniteLoaderProps p))
  ∧ (∀ props el p,
       PipelineRunsListView.render props = Normal el → tableOf el = Some p →
       guards (getNextPage (PipelineRunsListView.fetched props))
         (nextPage (PipelineRunsListView.fetched props))
         (Table.infiniteLoaderProps p))
  ∧ (∀ props el p,
       SnapshotPipelineRunsList.render props = Normal el →
       tableOf el = Some p →
       guards (SnapshotPipelineRunsList.getNextPage props)
         (SnapshotPipelineRunsList.nextPageProps props)
         (Table.infiniteLoaderProps p)).
Proof.
  split_and!.
  - intros el p Hr Ht.
    destruct (CommitsPipelineRunTab_table el p Hr Ht) as (fd & _ & _ & ->).
    apply infiniteLoader_guards.
  - intros props el p Hr Ht.
    destruct (PipelineRunsListView_table props el p Hr Ht)
      as (fd & _ & _ & ->).
    apply infiniteLoader_guards.
  - intros props el p Hr Ht.
    destruct (SnapshotPipelineRunsList_table props el p Hr Ht)
      as (c & fd & runs & _ & _ & _ & _ & _ & ->).
    apply infiniteLoader_guards.
Qed.

End InfiniteLoading.

(** The three views run on fetched records.  The commit tab over three
    records with more pages to come reports four rows, of which rows 0 to
    2 are loaded; the application view over the same records without a
    further page reports three rows, newest first; the snapshot list,
    whose caller hides ["r2"], reports the two remaining rows. *)
Lemma infinite_loader_row_count_witness :
  let C := Fixture.collaborators [] (Fixture.fetchOf Fixture.three_runs true) in
  let D := Fixture.collaborators [] (Fixture.fetchOf Fixture.three_runs false) in
  let r1 := Fixture.run "r1" (Some "build") (Some "2024-01-01T00:00:00Z") in
  let r2 := Fixture.run "r2" (Some "build") (Some "2024-03-01T00:00:00Z") in
  let r3 := Fixture.run "r3" (Some "test") (Some "2024-02-01T00:00:00Z") in
  (∃ el p,
     @CommitsPipelineRunTab.render C = Normal el
     ∧ tableOf el = Some p
     ∧ Table.data p = [r1; r2; r3]
     ∧ Table.rowCount (Table.infiniteLoaderProps p) = 4%nat
     ∧ Table.isRowLoaded (Table.infiniteLoaderProps p) 2 = true
     ∧ Table.isRowLoaded (Table.infiniteLoaderProps p) 3 = false)
  ∧ (∃ el p,
       @PipelineRunsListView.render D Fixture.listProps = Normal el
       ∧ tableOf el = Some p
       ∧ Table.data p = [r2; r3; r1]
       ∧ Table.rowCount (Table.infiniteLoaderProps p) = 3%nat
       ∧ Table.isRowLoaded (Table.infiniteLoaderProps p) 2 = true
       ∧ Table.isRowLoaded (Table.infiniteLoaderProps p) 3 = false)
  ∧ (∃ el p,
       @SnapshotPipelineRunsList.render D
         (Fixture.snapshotProps Fixture.three_runs) = Normal el
       ∧ tableOf el = Some p
       ∧ Table.data p = [r1; r3]
       ∧ Table.rowCount (Table.infiniteLoaderProps p) = 2%nat
       ∧ Table.isRowLoaded (Table.infiniteLoaderProps p) 1 = true
       ∧ Table.isRowLoaded (Table.infiniteLoaderProps p) 2 = false).
Proof.
  intros C D r1 r2 r3.
  destruct (@infinite_loader_row_count C)
    as (Hcommit & _ & _ & _ & _ & _).
  destruct (@infinite_loader_row_count D)
    as (_ & Hlist & Hsnapshot & _ & _ & _).
  split_and!.
  - destruct (Hcommit _ eq_refl eq_refl
                (or_intror (fun E : Fixture.three_runs = [] =>
                              eq_ind Fixture.three_runs
                                (fun l => match l with
                                          | [] => False
                                          | _ :: _ => True
                                          end) I [] E)))
      as (el & p & Hr & Ht & _ & Hd & Hn & Hrows).
    exists el, p. split_and!; [exact Hr | exact Ht | exact Hd | exact Hn | |].
    + apply Hrows. vm_compute. split; [discriminate | reflexivity].
    + destruct (Table.isRowLoaded (Table.infiniteLoaderProps p) 3) eqn:E;
        [|reflexivity].
      apply Hrows in E. vm_compute in E. destruct E as [_ E]. discriminate E.
  - destruct (Hlist Fixture.listProps _ eq_refl eq_refl)
      as (el & p & Hr & Ht & _ & Hd & Hn & Hrows).
    exists el, p. split_and!; [exact Hr | exact Ht | exact Hd | exact Hn | |].
    + apply Hrows. vm_compute. split; [discriminate | reflexivity].
    + destruct (Table.isRowLoaded (Table.infiniteLoaderProps p) 3) eqn:E;
        [|reflexivity].
      apply Hrows in E. vm_compute in E. destruct E as [_ E]. discriminate E.
  - destruct (Hsnapshot (Fixture.snapshotProps Fixture.three_runs)
                Fixture.three_runs _ _ eq_refl eq_refl
                (fun E : Fixture.three_runs = [] =>
                   eq_ind Fixture.three_runs
                     (fun l => match l with
                               | [] => False
                               | _ :: _ => True
                               end) I [] E)
                eq_refl eq_refl)
      as (el & p & Hr & Ht & _ & Hd & Hn & Hrows).
    exists el, p. split_and!; [exact Hr | exact Ht | exact Hd | exact Hn | |].
    + apply Hrows. vm_compute. split; [discriminate | reflexivity].
    + destruct (Table.isRowLoaded (Table.infiniteLoaderProps p) 2) eqn:E;
        [|reflexivity].
      apply Hrows in E. vm_compute in E. destruct E as [_ E]. discriminate E.
Defined.

(** The same render: [loadMoreRows] issues one request for the next
    page. *)
Lemma load_more_rows_guard_witness :
  let C := Fixture.collaborators [] (Fixture.fetchOf Fixture.three_runs true) in
  ∃ el p,
    @CommitsPipelineRunTab.render C = Normal el
    ∧ tableOf el = Some p
    ∧ Table.loadMoreRows (Table.infiniteLoaderProps p) []
      = ((), [NextPageRequested]).
Proof.
  intros C.
  pose proof (proj1 (@load_more_rows_guard C) _ _ eq_refl eq_refl) as Hg.
  eexists _, _. split_and!; [reflexivity | reflexivity |].
  rewrite Hg. reflexivity.
Defined.

(** ** Error state *)

Lemma length_zero_empty (s : string) :
  (String.length s =? 0)%nat = String.eqb s "".
Proof. by destruct s. Qed.

Lemma length_pos_nonempty (s : string) :
  (0 <? String.length s)%nat = negb (String.eqb s "").
Proof. by destruct s. Qed.

Section ErrorState.
Context `{Collaborators}.

(** C4.  Whenever a fetch error is present in the commit tab or in the
    application list view, the view returns the error state with the title
    "Unable to load pipeline runs", and its body is the mapped error's
    message when that is non-empty and "Something went wrong" when it is
    the empty string. *)
Theorem error_state_title_and_body :
  (∀ e fd,
     error CommitsPipelineRunTab.fetched = Some e →
     useFilteredData
       (default [] (pipelineRuns CommitsPipelineRunTab.fetched))
       CommitsPipelineRunTab.filterConfigs = Normal fd →
     ∃ httpError,
       CommitsPipelineRunTab.render
       = Normal (ErrorEmptyState httpError "Unable to load pipeline runs"
                   (errorBody httpError))
       ∧ httpError = HttpError_fromCode (code e))
  ∧ (∀ props e fd,
       error (PipelineRunsListView.fetched props) = Some e →
       useFilteredData (PipelineRunsListView.baseFilteredRuns props)
         PipelineRunsListView.filterConfigs = Normal fd →
       ∃ httpError,
         PipelineRunsListView.render props
         = Normal (ErrorEmptyState httpError "Unable to load pipeline runs"
                     (errorBody httpError))
         ∧ httpError = HttpError_fromCode (code e)).
Proof.
  split.
  - intros e fd He Hfd. eexists. split; [|reflexivity].
    unfold CommitsPipelineRunTab.render. rewrite Hfd, He. simpl.
    unfold errorBody. rewrite length_pos_nonempty.
    by destruct (String.eqb _ _).
  - intros props e fd He Hfd. eexists. split; [|reflexivity].
    unfold PipelineRunsListView.render. rewrite Hfd, He. simpl.
    unfold errorBody. rewrite length_zero_empty.
    by destruct (String.eqb _ _).
Qed.

(** Inside [if (error)] the conditional [error ? error.code : 404] always
    takes its first branch. *)
Lemma errorCode_present (e : FetchError) : errorCode (Some e) = code e.
Proof. reflexivity. Qed.

End ErrorState.

(** A fetch that failed with code 403, and one whose code maps to the
    empty message. *)
Lemma error_state_title_and_body_witness :
  @CommitsPipelineRunTab.render
    (Fixture.collaborators [] (Fixture.failed {| code := Some 403 |}))
  = Normal (ErrorEmptyState {| message := "Forbidden" |}
              "Unable to load pipeline runs" "Forbidden")
  ∧ @PipelineRunsListView.render
      (Fixture.collaborators [] (Fixture.failed {| code := Some 418 |}))
      Fixture.listProps
    = Normal (ErrorEmptyState {| message := "" |}
                "Unable to load pipeline runs" "Something went wrong").
Proof.
  split.
  - destruct (proj1 (@error_state_title_and_body
                       (Fixture.collaborators []
                          (Fixture.failed {| code := Some 403 |})))
                _ _ eq_refl eq_refl) as (h & -> & ->).
    reflexivity.
  - destruct (proj2 (@error_state_title_and_body
                       (Fixture.collaborators []
                          (Fixture.failed {| code := Some 418 |})))
                Fixture.listProps _ _ eq_refl eq_refl) as (h & -> & ->).
    reflexivity.
Defined.

(** C5.  A fetch error that carries no code: the mapper is called with
    [undefined], not with 404.  With a mapper that knows 404 as "Not
    Found" the two views show the fallback body instead. *)
Theorem error_without_code_is_not_mapped_as_404 :
  let e := {| code := None |} in
  let C := Fixture.collaborators [] (Fixture.failed e) in
  errorCode (Some e) = None
  ∧ @CommitsPipelineRunTab.render C
    = Normal (ErrorEmptyState (Fixture.fromCode None)
                "Unable to load pipeline runs" "Something went wrong")
  ∧ @PipelineRunsListView.render C Fixture.listProps
    = Normal (ErrorEmptyState (Fixture.fromCode None)
                "Unable to load pipeline runs" "Something went wrong")
  ∧ errorBody (Fixture.fromCode (Some 404)) = "Not Found".
Proof. by split_and!. Qed.

(** ** Sorting *)

Lemma sort_insert_Permutation {A} (comparefn : A → A → option Z) x l :
  sort_insert comparefn x l ≡ₚ x :: l.
Proof.
  induction l as [|y l IH]; simpl; [done|].
  destruct (SortCompare comparefn x y <=? 0); [done|].
  rewrite IH. apply Permutation_swap.
Qed.

Lemma Array_sort_Permutation {A} (comparefn : A → A → option Z) l :
  Array_sort comparefn l ≡ₚ l.
Proof.
  induction l as [|x l IH]; simpl; [done|].
  by rewrite sort_insert_Permutation, IH.
Qed.

Lemma Array_sort_length {A} (comparefn : A → A → option Z) l :
  length (Array_sort comparefn l) = length l.
Proof. by rewrite Array_sort_Permutation. Qed.

Lemma Array_sort_nil_inv {A} (comparefn : A → A → option Z) l :
  Array_sort comparefn l = [] → l = [].
Proof.
  intros Hs. apply length_zero_iff_nil.
  by rewrite <- (Array_sort_length comparefn), Hs.
Qed.

Lemma StronglySorted_weaken {A} (R1 R2 : relation A) (P : A → Prop) l :
  (∀ x y, P x → P y → R1 x y → R2 x y) →
  Forall P l → StronglySorted R1 l → StronglySorted R2 l.
Proof.
  intros HR HP Hs. induction Hs as [|x l Hl IH Hx]; [constructor|].
  apply Forall_cons in HP as [Hx' HP].
  constructor; [by apply IH|].
  rewrite Forall_forall in Hx, HP. apply Forall_forall. intros y Hy.
  apply HR; auto.
Qed.

(** Sortedness for a comparator that is consistent on the elements
    satisfying [P]. *)
Section SortCorrect.
Context {A : Type} (comparefn : A → A → option Z) (P : A → Prop).

Hypothesis before_total :
  ∀ x y, P x → P y → before comparefn x y ∨ before comparefn y x.
Hypothesis before_trans :
  ∀ x y z, P x → P y → P z →
    before comparefn x y → before comparefn y z → before comparefn x z.

Lemma sort_insert_sorted x l :
  P x → Forall P l → StronglySorted (before comparefn) l →
  StronglySorted (before comparefn) (sort_insert comparefn x l).
Proof.
  intros Hx. induction l as [|y l IH]; intros HP Hs; simpl.
  { repeat constructor. }
  apply Forall_cons in HP as [Hy HP].
  apply StronglySorted_inv in Hs as [Hs Hy_le].
  destruct (Z.leb_spec (SortCompare comparefn x y) 0) as [Hle|Hgt].
  - constructor; [by constructor|]. constructor; [done|].
    rewrite Forall_forall in Hy_le, HP. apply Forall_forall. intros z Hz.
    eapply before_trans with y; eauto.
  - constructor; [by apply IH|].
    rewrite sort_insert_Permutation. constructor; [|done].
    destruct (before_total x y Hx Hy) as [Hxy|Hyx]; [|done].
    unfold before in Hxy. lia.
Qed.

Lemma Array_sort_sorted l :
  Forall P l → StronglySorted (before comparefn) (Array_sort comparefn l).
Proof.
  induction l as [|x l IH]; intros HP; simpl; [constructor|].
  apply Forall_cons in HP as [Hx HP].
  apply sort_insert_sorted; [done| |by apply IH].
  by rewrite Array_sort_Permutation.
Qed.

End SortCorrect.

(** The sort is stable: the elements of a group keep their order,
    provided the comparator never puts one of the group after another. *)
Section SortStable.
Context {A : Type} (comparefn : A → A → option Z) (group : A → bool).

Hypothesis group_not_after :
  ∀ x y, group x = true → group y = true → before comparefn x y.

Lemma sort_insert_stable x l :
  List.filter group (sort_insert comparefn x l) = List.filter group (x :: l).
Proof.
  induction l as [|y l IH]; [done|]. cbn [sort_insert].
  destruct (Z.leb_spec (SortCompare comparefn x y) 0) as [Hle|Hgt]; [done|].
  cbn [List.filter] in *. rewrite IH.
  destruct (group x) eqn:Hx, (group y) eqn:Hy; try done.
  pose proof (group_not_after x y Hx Hy) as Hb. unfold before in Hb. lia.
Qed.

Lemma Array_sort_stable l :
  List.filter group (Array_sort comparefn l) = List.filter group l.
Proof.
  induction l as [|x l IH]; [done|]. cbn [Array_sort].
  rewrite sort_insert_stable. cbn [List.filter]. by rewrite IH.
Qed.

End SortStable.

Section Sorting.
Context `{Collaborators}.

(** [localeCompare] orders strings: a total preorder. *)
Hypothesis localeCompare_total :
  ∀ a b, localeCompare a b ≤ 0 ∨ localeCompare b a ≤ 0.
Hypothesis localeCompare_trans :
  ∀ a b c, localeCompare a b ≤ 0 → localeCompare b c ≤ 0 → localeCompare a c ≤ 0.

Lemma before_startsNoEarlier x y :
  is_Some (status_startTime x) → is_Some (status_startTime y) →
  before PipelineRunsListView.compareStartTime x y → startsNoEarlier x y.
Proof.
  intros [tx Hx] [ty Hy]. unfold before, SortCompare, startsNoEarlier.
  unfold PipelineRunsListView.compareStartTime. rewrite Hx, Hy. simpl.
  eauto.
Qed.

(** C7.  In the application list view, for every fetched collection whose
    records all have a [status.startTime], [sortedPipelineRuns] is that
    collection rearranged, without loss or gain of records, in descending
    order of [status.startTime] under [localeCompare]; records with the
    same [status.startTime] keep the order in which they were fetched. *)
Theorem sortedPipelineRuns_descending props runs :
  pipelineRuns (PipelineRunsListView.fetched props) = Some runs →
  Forall (λ r, is_Some (status_startTime r)) runs →
  PipelineRunsListView.sortedPipelineRuns props ≡ₚ runs
  ∧ StronglySorted startsNoEarlier (PipelineRunsListView.sortedPipelineRuns props)
  ∧ ∀ t, List.filter (sameStart t) (PipelineRunsListView.sortedPipelineRuns props)
         = List.filter (sameStart t) runs.
Proof.
  intros Hruns Hall. unfold PipelineRunsListView.sortedPipelineRuns.
  rewrite Hruns.
  assert (Hstable : ∀ t,
            List.filter (sameStart t)
              (Array_sort PipelineRunsListView.compareStartTime runs)
            = List.filter (sameStart t) runs).
  { intros t. apply Array_sort_stable.
    intros x y Hx%bool_decide_eq_true Hy%bool_decide_eq_true.
    unfold before, SortCompare, PipelineRunsListView.compareStartTime.
    rewrite Hx, Hy. simpl. by destruct (localeCompare_total t t). }
  assert (Hs : Array_sort PipelineRunsListView.compareStartTime runs ≡ₚ runs)
    by apply Array_sort_Permutation.
  assert (Hsorted : StronglySorted startsNoEarlier
            (Array_sort PipelineRunsListView.compareStartTime runs)).
  { assert (Hall' : Forall (λ r, is_Some (status_startTime r))
              (Array_sort PipelineRunsListView.compareStartTime runs))
      by by rewrite Hs.
    pose proof (Array_sort_sorted PipelineRunsListView.compareStartTime
                  (λ r, is_Some (status_startTime r))) as Hsort.
    assert (Hb : StronglySorted (before PipelineRunsListView.compareStartTime)
              (Array_sort PipelineRunsListView.compareStartTime runs)).
    { apply Hsort; [| |done].
      - intros x y [tx Hx] [ty Hy]. unfold before, SortCompare.
        unfold PipelineRunsListView.compareStartTime.
        rewrite Hx, Hy. simpl. destruct (localeCompare_total ty tx); auto.
      - intros x y z [tx Hx] [ty Hy] [tz Hz]. unfold before, SortCompare.
        unfold PipelineRunsListView.compareStartTime.
        rewrite Hx, Hy, Hz. simpl. eauto. }
    eapply StronglySorted_weaken; [|exact Hall'|exact Hb].
    intros x y. apply before_startsNoEarlier. }
  by destruct hasToSorted.
Qed.

End Sorting.

Section Comparator.
Context `{Collaborators}.

(** C9.  The sort comparator of the application list view returns a
    number exactly when its second argument has a [status.startTime] (the
    [localeCompare] of the two start times when both records have one);
    when that is missing, or [status] itself is, it returns [undefined].  So it
    is number-valued on every pair of a collection iff every record of the
    collection has a [status.startTime], and between two records that both
    lack one it returns [undefined] either way round. *)
Theorem compareStartTime_undefined :
  (∀ a b ta tb,
     status_startTime a = Some ta → status_startTime b = Some tb →
     PipelineRunsListView.compareStartTime a b = Some (localeCompare tb ta))
  ∧ (∀ a b, status b = None → PipelineRunsListView.compareStartTime a b = None)
  ∧ (∀ a b, status_startTime b = None →
            PipelineRunsListView.compareStartTime a b = None)
  ∧ (∀ a b, is_Some (PipelineRunsListView.compareStartTime a b)
            ↔ is_Some (status_startTime b))
  ∧ (∀ runs : list PipelineRunKind,
       (∀ a b, a ∈ runs → b ∈ runs →
               is_Some (PipelineRunsListView.compareStartTime a b))
       ↔ Forall (λ r, is_Some (status_startTime r)) runs)
  ∧ (∀ a b, status_startTime a = None → status_startTime b = None →
            PipelineRunsListView.compareStartTime a b = None
            ∧ PipelineRunsListView.compareStartTime b a = None).
Proof.
  assert (Hiff : ∀ a b, is_Some (PipelineRunsListView.compareStartTime a b)
                        ↔ is_Some (status_startTime b)).
  { intros a b. unfold PipelineRunsListView.compareStartTime.
    destruct (status_startTime b); split; intros [? ?]; by eauto. }
  assert (Hnone : ∀ a b, status_startTime b = None →
                         PipelineRunsListView.compareStartTime a b = None).
  { intros a b Hb. unfold PipelineRunsListView.compareStartTime.
    by rewrite Hb. }
  split_and!; auto.
  - intros a b ta tb Ha Hb. unfold PipelineRunsListView.compareStartTime.
    by rewrite Ha, Hb.
  - intros a b Hb. apply Hnone. unfold status_startTime. by rewrite Hb.
  - intros runs. rewrite Forall_forall. split.
    + intros Hall r Hr. apply (Hiff r r). by apply Hall.
    + intros Hall a b _ Hb. apply Hiff. by apply Hall.
Qed.

End Comparator.

(** The byte-wise comparison of the fixture is a total preorder. *)
Lemma compare_code_units_le a b :
  Fixture.compare_code_units a b ≤ 0 ↔ String.compare a b ≠ Gt.
Proof.
  unfold Fixture.compare_code_units. destruct (String.compare a b); split;
    first [done | lia].
Qed.

Lemma string_compare_le_trans a b c :
  String.compare a b ≠ Gt → String.compare b c ≠ Gt → String.compare a c ≠ Gt.
Proof.
  revert b c. induction a as [|x a IH]; intros [|y b] [|z c]; simpl; try done.
  unfold Ascii.compare.
  destruct (N.compare_spec (Ascii.N_of_ascii x) (Ascii.N_of_ascii y)) as [Hxy|Hxy|Hxy],
           (N.compare_spec (Ascii.N_of_ascii y) (Ascii.N_of_ascii z)) as [Hyz|Hyz|Hyz],
           (N.compare_spec (Ascii.N_of_ascii x) (Ascii.N_of_ascii z)) as [Hxz|Hxz|Hxz];
    try done; try lia.
  apply IH.
Qed.

Lemma compare_code_units_total a b :
  Fixture.compare_code_units a b ≤ 0 ∨ Fixture.compare_code_units b a ≤ 0.
Proof.
  rewrite !compare_code_units_le, (String.compare_antisym a b).
  destruct (String.compare b a); simpl; auto.
Qed.

Lemma compare_code_units_trans a b c :
  Fixture.compare_code_units a b ≤ 0 → Fixture.compare_code_units b c ≤ 0 →
  Fixture.compare_code_units a c ≤ 0.
Proof. rewrite !compare_code_units_le. apply string_compare_le_trans. Qed.

(** The example of the specification: records started in January, March
    and February come out as March, February, January. *)
Lemma sortedPipelineRuns_descending_witness :
  let C := Fixture.collaborators [] (Fixture.fetchOf Fixture.three_runs false) in
  let sorted := @PipelineRunsListView.sortedPipelineRuns C Fixture.listProps in
  status_startTime <$> sorted
  = [Some "2024-03-01T00:00:00Z"; Some "2024-02-01T00:00:00Z";
     Some "2024-01-01T00:00:00Z"]
  ∧ sorted ≡ₚ Fixture.three_runs
  ∧ StronglySorted (@startsNoEarlier C) sorted
  ∧ ∀ t, List.filter (sameStart t) sorted
         = List.filter (sameStart t) Fixture.three_runs.
Proof.
  intros C sorted. split; [reflexivity|].
  apply (@sortedPipelineRuns_descending C
           compare_code_units_total compare_code_units_trans
           Fixture.listProps Fixture.three_runs eq_refl).
  repeat constructor; eexists; reflexivity.
Defined.

(** A run that has not started yet, compared with one that has. *)
Lemma compareStartTime_undefined_witness :
  let C := Fixture.collaborators [] (Fixture.fetchOf [] false) in
  let pending := {| metadata := None; status := None |} in
  let started := Fixture.run "r1" None (Some "2024-01-01T00:00:00Z") in
  @PipelineRunsListView.compareStartTime C started pending = None
  ∧ @PipelineRunsListView.compareStartTime C pending pending = None
  ∧ is_Some (@PipelineRunsListView.compareStartTime C pending started)
  ∧ ¬ (∀ a b, a ∈ [started; pending] → b ∈ [started; pending] →
              is_Some (@PipelineRunsListView.compareStartTime C a b)).
Proof.
  intros C pending started.
  pose proof (@compareStartTime_undefined C)
    as (_ & Hstatus & Hstart & Hiff & Hall & Hboth).
  split_and!.
  - by apply Hstatus.
  - by apply (Hboth pending pending).
  - apply Hiff. by eexists.
  - rewrite Hall. intros Hf. apply Forall_cons in Hf as [_ Hf].
    apply Forall_cons in Hf as [[t Ht] _]. discriminate Ht.
Defined.

(** ** Vulnerability enrichment *)

Section Enrichment.
Context `{Collaborators}.

(** C8.  The application list view enriches the filtered collection
    exactly when the URL's [name] parameter is non-empty, and the full
    sorted collection otherwise; the commit tab enriches the filtered
    collection iff [isFiltered] is true, and what was fetched otherwise.
    The enrichment is what the table receives as [customData]. *)
Theorem enrichment_input :
  (∀ props fd,
     PipelineRunsListView.vulnerabilities props fd
     = usePLRVulnerabilities
         (Some match params_get useSearchParams "name" with
               | Some (String _ _) => filteredData fd
               | Some EmptyString | None =>
                   PipelineRunsListView.sortedPipelineRuns props
               end))
  ∧ (∀ fd,
       CommitsPipelineRunTab.vulnerabilities fd
       = usePLRVulnerabilities
           (if isFiltered fd then Some (filteredData fd)
            else pipelineRuns CommitsPipelineRunTab.fetched))
  ∧ (∀ props el p,
       PipelineRunsListView.render props = Normal el → tableOf el = Some p →
       ∃ fd,
         useFilteredData (PipelineRunsListView.baseFilteredRuns props)
           PipelineRunsListView.filterConfigs = Normal fd
         ∧ Table.customData p = PipelineRunsListView.vulnerabilities props fd)
  ∧ (∀ el p,
       CommitsPipelineRunTab.render = Normal el → tableOf el = Some p →
       ∃ fd,
         useFilteredData
           (default [] (pipelineRuns CommitsPipelineRunTab.fetched))
           CommitsPipelineRunTab.filterConfigs = Normal fd
         ∧ Table.customData p = CommitsPipelineRunTab.vulnerabilities fd).
Proof.
  split_and!.
  - intros props fd. unfold PipelineRunsListView.vulnerabilities.
    unfold PipelineRunsListView.name.
    by destruct (params_get useSearchParams "name") as [[|c s]|].
  - done.
  - intros props el p Hr Ht.
    destruct (PipelineRunsListView_table props el p Hr Ht)
      as (fd & Hfd & _ & ->).
    by exists fd.
  - intros el p Hr Ht.
    destruct (CommitsPipelineRunTab_table el p Hr Ht) as (fd & Hfd & _ & ->).
    by exists fd.
Qed.

(** C10.  The snapshot list enriches the raw [snapshotPipelineRuns], not
    the collection reduced by [customFilter], when no generic filter is
    active; when one is, it enriches the hook's output, computed from the
    collection [customFilter] has reduced, so that (for a hook that returns
    part of its input) every enriched record satisfies [customFilter]. *)
Theorem snapshot_enrichment_input props el p :
  SnapshotPipelineRunsList.render props = Normal el → tableOf el = Some p →
  ∃ runs fd,
    SnapshotPipelineRunsList.snapshotPipelineRuns props = Some runs
    ∧ useFilteredData
        match SnapshotPipelineRunsList.customFilter props with
        | Some customFilter => List.filter customFilter runs
        | None => runs
        end
        SnapshotPipelineRunsList.filterConfigs = Normal fd
    ∧ Table.customData p
      = usePLRVulnerabilities
          (if isFiltered fd then Some (filteredData fd) else Some runs)
    ∧ ((∀ data configs fd',
          useFilteredData data configs = Normal fd' →
          filteredData fd' ⊆ data) →
       ∀ customFilter,
         SnapshotPipelineRunsList.customFilter props = Some customFilter →
         Forall (λ r, customFilter r = true) (filteredData fd)).
Proof.
  intros Hr Ht.
  destruct (SnapshotPipelineRunsList_table props el p Hr Ht)
    as (c & fd & runs & Hc & Hfd & Hruns & _ & _ & ->).
  exists runs, fd.
  unfold SnapshotPipelineRunsList.filteredByCustomFilter in Hc.
  rewrite Hruns in Hc.
  assert (Hin : default [] c
                = match SnapshotPipelineRunsList.customFilter props with
                  | Some customFilter => List.filter customFilter runs
                  | None => runs
                  end).
  { by destruct (SnapshotPipelineRunsList.customFilter props);
      injection Hc as <-. }
  rewrite Hin in Hfd. split_and!; [done..| |].
  - simpl. unfold SnapshotPipelineRunsList.vulnerabilities.
    by rewrite Hruns.
  - intros Hsub f Hf. rewrite Hf in Hfd. apply Hsub in Hfd.
    apply Forall_forall. intros r Hr'. apply Hfd in Hr'.
    apply list_elem_of_In, filter_In in Hr'. tauto.
Qed.

End Enrichment.

(** The hook of the fixture returns part of its input. *)
Lemma filterM_subseteq {A} (f : A → completion bool) l kept :
  filterM f l = Normal kept → kept ⊆ l.
Proof.
  revert kept. induction l as [|x l IH]; simpl; intros kept.
  { by intros [= <-]. }
  destruct (f x) as [keep|]; simpl; [|done].
  destruct (filterM f l) as [rest|]; simpl; [|done].
  intros [= <-]. specialize (IH rest eq_refl).
  destruct keep; intros y Hy; rewrite elem_of_cons.
  - apply elem_of_cons in Hy as [->|Hy]; auto.
  - auto.
Qed.

Lemma FilteredDataHook_subseteq searchParams activeAttribute attributeValue
    lowerCase data configs fd :
  FilteredDataHook.useFilteredData searchParams activeAttribute attributeValue
    lowerCase data configs = Normal fd →
  filteredData fd ⊆ data.
Proof.
  unfold FilteredDataHook.useFilteredData.
  destruct (filterM _ data) as [kept|] eqn:Hk; simpl; [|done].
  intros [= <-]. simpl. by eapply filterM_subseteq.
Qed.

(** With a status filter in the URL and no [name], the application list
    view enriches all three sorted records while the commit tab enriches
    the (empty) filtered collection; with a [name] the application list
    view enriches the filtered collection. *)
Lemma enrichment_input_witness :
  let byStatus :=
    Fixture.collaborators [("status", "Failed")]
      (Fixture.fetchOf Fixture.three_runs false) in
  let byName :=
    Fixture.collaborators [("name", "r1")]
      (Fixture.fetchOf Fixture.three_runs false) in
  (∃ el p,
     @PipelineRunsListView.render byStatus Fixture.listProps = Normal el
     ∧ tableOf el = Some p
     ∧ fetchedPipelineRuns (Table.customData p) = ["r2"; "r3"; "r1"])
  ∧ (∃ el p,
       @CommitsPipelineRunTab.render byStatus = Normal el
       ∧ tableOf el = Some p
       ∧ fetchedPipelineRuns (Table.customData p) = [])
  ∧ (∃ el p,
       @PipelineRunsListView.render byName Fixture.listProps = Normal el
       ∧ tableOf el = Some p
       ∧ fetchedPipelineRuns (Table.customData p) = ["r1"]).
Proof.
  intros byStatus byName. split_and!.
  - destruct (@enrichment_input byStatus) as (Hlist & _ & Htable & _).
    destruct (Htable Fixture.listProps _ _ eq_refl eq_refl) as (fd & Hfd & Hcd).
    eexists _, _. split_and!; [reflexivity..|].
    rewrite Hcd, Hlist. reflexivity.
  - destruct (@enrichment_input byStatus) as (_ & Hcommit & _ & Htable).
    destruct (Htable _ _ eq_refl eq_refl) as (fd & Hfd & Hcd).
    eexists _, _. split_and!; [reflexivity..|].
    rewrite Hcd, Hcommit. by hook_result Hfd.
  - destruct (@enrichment_input byName) as (Hlist & _ & Htable & _).
    destruct (Htable Fixture.listProps _ _ eq_refl eq_refl) as (fd & Hfd & Hcd).
    eexists _, _. split_and!; [reflexivity..|].
    rewrite Hcd, Hlist. by hook_result Hfd.
Defined.

(** The caller's [customFilter] drops ["r2"].  Without a generic filter
    the enrichment still covers ["r2"]; with the type filter set to
    ["build"] it covers only ["r1"]. *)
Lemma snapshot_enrichment_input_witness :
  let props := Fixture.snapshotProps Fixture.three_runs in
  let unfiltered := Fixture.collaborators [] (Fixture.fetchOf [] false) in
  let byType :=
    Fixture.collaborators [("type", "build")] (Fixture.fetchOf [] false) in
  (∃ el p,
     @SnapshotPipelineRunsList.render unfiltered props = Normal el
     ∧ tableOf el = Some p
     ∧ fetchedPipelineRuns (Table.customData p) = ["r1"; "r2"; "r3"])
  ∧ (∃ el p fd,
       @SnapshotPipelineRunsList.render byType props = Normal el
       ∧ tableOf el = Some p
       ∧ fetchedPipelineRuns (Table.customData p) = ["r1"]
       ∧ Table.data p = filteredData fd
       ∧ Forall (λ r, Fixture.metadata_name r ≠ "r2") (filteredData fd)).
Proof.
  intros props unfiltered byType. split.
  - destruct (@snapshot_enrichment_input unfiltered props _ _ eq_refl eq_refl)
      as (runs & fd & Hruns & Hfd & Hcd & _).
    eexists _, _. split_and!; [reflexivity..|].
    rewrite Hcd. injection Hruns as <-.
    by hook_result Hfd.
  - destruct (@snapshot_enrichment_input byType props _ _ eq_refl eq_refl)
      as (runs & fd & Hruns & Hfd & Hcd & Hall).
    injection Hruns as <-.
    eexists _, _, fd. split_and!; [reflexivity..| | |].
    + rewrite Hcd. by hook_result Hfd.
    + by hook_result Hfd.
    + eapply Forall_impl.
      * apply (Hall (λ data configs fd',
                  FilteredDataHook_subseteq _ _ _ _ data configs fd')
                 _ eq_refl).
      * simpl. intros r Hr Heq. by rewrite Heq in Hr.
Defined.

(** ** Empty states *)

Section EmptyStates.
Context `{Collaborators}.

(** With an empty total, no error and [loaded], the commit tab returns
    the "no pipeline runs" state before it looks at any filter. *)
Lemma CommitsPipelineRunTab_no_runs fd :
  error CommitsPipelineRunTab.fetched = None →
  loaded CommitsPipelineRunTab.fetched = true →
  default [] (pipelineRuns CommitsPipelineRunTab.fetched) = [] →
  useFilteredData [] CommitsPipelineRunTab.filterConfigs = Normal fd →
  CommitsPipelineRunTab.render
  = Normal (PipelineRunEmptyState (applicationName useParams)).
Proof.
  intros He Hl Hruns Hfd. unfold CommitsPipelineRunTab.render.
  rewrite Hruns, Hfd, He, Hl. simpl.
  by destruct (pipelineRuns CommitsPipelineRunTab.fetched) as [[|]|].
Qed.

(** So does the snapshot list. *)
Lemma SnapshotPipelineRunsList_no_runs props byCustomFilter fd :
  SnapshotPipelineRunsList.loaded props = true →
  default [] (SnapshotPipelineRunsList.snapshotPipelineRuns props) = [] →
  SnapshotPipelineRunsList.filteredByCustomFilter props
    = Normal byCustomFilter →
  useFilteredData (default [] byCustomFilter)
    SnapshotPipelineRunsList.filterConfigs = Normal fd →
  SnapshotPipelineRunsList.render props
  = Normal (PipelineRunEmptyState
              (SnapshotPipelineRunsList.applicationName props)).
Proof.
  intros Hl Hruns Hc Hfd. unfold SnapshotPipelineRunsList.render.
  rewrite Hc. simpl. rewrite Hfd. simpl. rewrite Hl. simpl.
  by destruct (SnapshotPipelineRunsList.snapshotPipelineRuns props)
    as [[|]|].
Qed.

(** What the three tables show for an empty [data]. *)
Lemma CommitsPipelineRunTab_empty_data fd :
  error CommitsPipelineRunTab.fetched = None →
  isFetchingNextPage (nextPage CommitsPipelineRunTab.fetched)
    || loaded CommitsPipelineRunTab.fetched = true →
  default [] (pipelineRuns CommitsPipelineRunTab.fetched) ≠ [] →
  useFilteredData (default [] (pipelineRuns CommitsPipelineRunTab.fetched))
    CommitsPipelineRunTab.filterConfigs = Normal fd →
  filteredData fd = [] →
  ∃ el,
    CommitsPipelineRunTab.render = Normal el
    ∧ shown el
      = Some (ShownEmptyState
                (emptyMsgFor (isFiltered fd) [] (applicationName useParams))).
Proof.
  intros He Hl Hruns Hfd Hempty. unfold CommitsPipelineRunTab.render.
  rewrite Hfd, He. simpl.
  destruct (pipelineRuns CommitsPipelineRunTab.fetched) as [[|r runs]|] eqn:Hp;
    try done.
  rewrite andb_false_r. eexists. split; [reflexivity|].
  rewrite orb_true_r. unfold shown. simpl. unfold Table.render. simpl.
  rewrite Hl, Hp, Hempty. simpl. by destruct (isFiltered fd).
Qed.

Lemma PipelineRunsListView_empty_data props fd :
  error (PipelineRunsListView.fetched props) = None →
  isFetchingNextPage (nextPage (PipelineRunsListView.fetched props))
    || loaded (PipelineRunsListView.fetched props) = true →
  useFilteredData (PipelineRunsListView.baseFilteredRuns props)
    PipelineRunsListView.filterConfigs = Normal fd →
  filteredData fd = [] →
  ∃ el,
    PipelineRunsListView.render props = Normal el
    ∧ shown el
      = Some (ShownEmptyState
                (emptyMsgFor (isFiltered fd) []
                   (PipelineRunsListView.applicationName props))).
Proof.
  intros He Hl Hfd Hempty. unfold PipelineRunsListView.render.
  rewrite Hfd, He. simpl. eexists. split; [reflexivity|].
  unfold shown.
  destruct (isFiltered fd || _); simpl; unfold Table.render; simpl;
    rewrite Hl, Hempty; simpl;
    destruct (PipelineRunsListView.sortedPipelineRuns props);
    by destruct (isFiltered fd).
Qed.

Lemma SnapshotPipelineRunsList_empty_data props byCustomFilter fd :
  SnapshotPipelineRunsList.loaded props = true →
  default [] (SnapshotPipelineRunsList.snapshotPipelineRuns props) ≠ [] →
  SnapshotPipelineRunsList.filteredByCustomFilter props
    = Normal byCustomFilter →
  useFilteredData (default [] byCustomFilter)
    SnapshotPipelineRunsList.filterConfigs = Normal fd →
  filteredData fd = [] →
  ∃ el,
    SnapshotPipelineRunsList.render props = Normal el
    ∧ shown el
      = Some (ShownEmptyState
                (emptyMsgFor (isFiltered fd)
                   (SnapshotPipelineRunsList.handleClearFilters)
                   (SnapshotPipelineRunsList.applicationName props))).
Proof.
  intros Hl Hruns Hc Hfd Hempty. unfold SnapshotPipelineRunsList.render.
  rewrite Hc. simpl. rewrite Hfd. simpl. rewrite Hl. simpl.
  destruct (SnapshotPipelineRunsList.snapshotPipelineRuns props)
    as [[|r runs]|]; try done.
  eexists. split; [reflexivity|].
  rewrite orb_true_r. unfold shown. simpl. unfold Table.render. simpl.
  rewrite Hempty. by destruct (isFiltered fd).
Qed.

End EmptyStates.

Section EmptyStateSelection.
Context `{Collaborators}.

(** C3 (as amended).  With the fetch loaded, no error and an empty total,
    the commit tab and the snapshot list return the "no pipeline runs"
    state whatever the filters are; the application list view shows it
    only when no generic filter is active and shows the filtered-empty
    state when one is.  In every view, when the total is non-empty, the
    filtered collection is empty and a generic filter is active, the table
    shows the filtered-empty state with its clear-filters action. *)
Theorem empty_state_selection :
  (∀ fd,
     error CommitsPipelineRunTab.fetched = None →
     loaded CommitsPipelineRunTab.fetched = true →
     default [] (pipelineRuns CommitsPipelineRunTab.fetched) = [] →
     useFilteredData [] CommitsPipelineRunTab.filterConfigs = Normal fd →
     CommitsPipelineRunTab.render
     = Normal (PipelineRunEmptyState (applicationName useParams)))
  ∧ (∀ props byCustomFilter fd,
       SnapshotPipelineRunsList.loaded props = true →
       default [] (SnapshotPipelineRunsList.snapshotPipelineRuns props) = [] →
       SnapshotPipelineRunsList.filteredByCustomFilter props
         = Normal byCustomFilter →
       useFilteredData (default [] byCustomFilter)
         SnapshotPipelineRunsList.filterConfigs = Normal fd →
       SnapshotPipelineRunsList.render props
       = Normal (PipelineRunEmptyState
                   (SnapshotPipelineRunsList.applicationName props)))
  ∧ (∀ props fd,
       error (PipelineRunsListView.fetched props) = None →
       loaded (PipelineRunsListView.fetched props) = true →
       default [] (pipelineRuns (PipelineRunsListView.fetched props)) = [] →
       useFilteredData [] PipelineRunsListView.filterConfigs = Normal fd →
       filteredData fd = [] →
       ∃ el,
         PipelineRunsListView.render props = Normal el
         ∧ shown el
           = Some (ShownEmptyState
                     (if isFiltered fd then FilteredEmptyStateMsg []
                      else PipelineRunEmptyStateMsg
                             (PipelineRunsListView.applicationName props))))
  ∧ (∀ fd,
       error CommitsPipelineRunTab.fetched = None →
       loaded CommitsPipelineRunTab.fetched = true →
       default [] (pipelineRuns CommitsPipelineRunTab.fetched) ≠ [] →
       useFilteredData (default [] (pipelineRuns CommitsPipelineRunTab.fetched))
         CommitsPipelineRunTab.filterConfigs = Normal fd →
       filteredData fd = [] → isFiltered fd = true →
       ∃ el,
         CommitsPipelineRunTab.render = Normal el
         ∧ shown el = Some (ShownEmptyState (FilteredEmptyStateMsg [])))
  ∧ (∀ props fd,
       error (PipelineRunsListView.fetched props) = None →
       loaded (PipelineRunsListView.fetched props) = true →
       default [] (pipelineRuns (PipelineRunsListView.fetched props)) ≠ [] →
       useFilteredData (PipelineRunsListView.baseFilteredRuns props)
         PipelineRunsListView.filterConfigs = Normal fd →
       filteredData fd = [] → isFiltered fd = true →
       ∃ el,
         PipelineRunsListView.render props = Normal el
         ∧ shown el = Some (ShownEmptyState (FilteredEmptyStateMsg [])))
  ∧ (∀ props byCustomFilter fd,
       SnapshotPipelineRunsList.loaded props = true →
       default [] (SnapshotPipelineRunsList.snapshotPipelineRuns props) ≠ [] →
       SnapshotPipelineRunsList.filteredByCustomFilter props
         = Normal byCustomFilter →
       useFilteredData (default [] byCustomFilter)
         SnapshotPipelineRunsList.filterConfigs = Normal fd →
       filteredData fd = [] → isFiltered fd = true →
       ∃ el,
         SnapshotPipelineRunsList.render props = Normal el
         ∧ shown el
           = Some (ShownEmptyState
                     (FilteredEmptyStateMsg
                        SnapshotPipelineRunsList.handleClearFilters))).
Proof.
  split_and!.
  - apply CommitsPipelineRunTab_no_runs.
  - apply SnapshotPipelineRunsList_no_runs.
  - intros props fd He Hl Hruns Hfd Hempty.
    assert (Hbase : PipelineRunsListView.baseFilteredRuns props = []).
    { unfold PipelineRunsListView.baseFilteredRuns,
        PipelineRunsListView.sortedPipelineRuns.
      destruct (pipelineRuns (PipelineRunsListView.fetched props))
        as [[|]|]; try done;
        by destruct (PipelineRunsListView.customFilter props), hasToSorted. }
    apply PipelineRunsListView_empty_data; try done.
    + by rewrite Hl, orb_true_r.
    + by rewrite Hbase.
  - intros fd He Hl Hruns Hfd Hempty Hfiltered.
    destruct (CommitsPipelineRunTab_empty_data fd) as (el & Hr & Hs);
      try done.
    + by rewrite Hl, orb_true_r.
    + exists el. by rewrite Hfiltered in Hs.
  - intros props fd He Hl Hruns Hfd Hempty Hfiltered.
    destruct (PipelineRunsListView_empty_data props fd) as (el & Hr & Hs);
      try done.
    + by rewrite Hl, orb_true_r.
    + exists el. by rewrite Hfiltered in Hs.
  - intros props c fd Hl Hruns Hc Hfd Hempty Hfiltered.
    destruct (SnapshotPipelineRunsList_empty_data props c fd)
      as (el & Hr & Hs); try done.
    exists el. by rewrite Hfiltered in Hs.
Qed.

End EmptyStateSelection.

(** C3 as stated fails in the application list view: the fetch has loaded
    without error, nothing was fetched, a status filter is active, and the
    only empty state the view hands to the table is the filtered-empty
    one, which the table shows; the "no pipeline runs" state is not
    shown. *)
Lemma empty_total_active_filter_counterexample :
  pipelineRuns (@PipelineRunsListView.fetched
                  Fixture.filteredNoRuns Fixture.listProps)
  = Some []
  ∧ loaded (@PipelineRunsListView.fetched
              Fixture.filteredNoRuns Fixture.listProps) = true
  ∧ error (@PipelineRunsListView.fetched
             Fixture.filteredNoRuns Fixture.listProps) = None
  ∧ ∃ el p,
      @PipelineRunsListView.render
        Fixture.filteredNoRuns Fixture.listProps = Normal el
      ∧ tableOf el = Some p
      ∧ Table.EmptyMsg p = FilteredEmptyStateMsg []
      ∧ Table.NoDataEmptyMsg p = None
      ∧ shown el = Some (ShownEmptyState (FilteredEmptyStateMsg []))
      ∧ shown el ≠ Some (ShownEmptyState (PipelineRunEmptyStateMsg "my-app")).
Proof.
  split_and!; [reflexivity..|].
  eexists _, _. split_and!; [reflexivity..|discriminate].
Qed.

(** When only the caller's [customFilter] empties the collection, no
    generic filter is active and the snapshot table shows the "no pipeline
    runs" state although runs were fetched. *)
Lemma custom_filter_empties_without_filtered_state :
  ∃ el,
    @SnapshotPipelineRunsList.render
      Fixture.unfiltered Fixture.rejectAll = Normal el
    ∧ (Table.data <$> tableOf el) = Some []
    ∧ (Table.unfilteredData <$> tableOf el) = Some Fixture.three_runs
    ∧ shown el = Some (ShownEmptyState (PipelineRunEmptyStateMsg "my-app")).
Proof. eexists. by split_and!. Qed.

Lemma empty_state_selection_witness :
  @CommitsPipelineRunTab.render Fixture.filteredNoRuns
  = Normal (PipelineRunEmptyState "my-app")
  ∧ @SnapshotPipelineRunsList.render Fixture.filteredNoRuns
      (Fixture.snapshotProps [])
    = Normal (PipelineRunEmptyState "my-app")
  ∧ (∃ el,
       @PipelineRunsListView.render Fixture.filteredNoRuns
         Fixture.listProps = Normal el
       ∧ shown el = Some (ShownEmptyState (FilteredEmptyStateMsg [])))
  ∧ (∃ el,
       @PipelineRunsListView.render Fixture.unfiltered
         Fixture.listProps = Normal el
       ∧ shown el = Some (ShownEmptyState (PipelineRunEmptyStateMsg "my-app")))
  ∧ (∃ el,
       @CommitsPipelineRunTab.render Fixture.filteredThreeRuns
       = Normal el
       ∧ shown el = Some (ShownEmptyState (FilteredEmptyStateMsg [])))
  ∧ (∃ el,
       @PipelineRunsListView.render Fixture.filteredThreeRuns
         Fixture.listProps = Normal el
       ∧ shown el = Some (ShownEmptyState (FilteredEmptyStateMsg [])))
  ∧ (∃ el,
       @SnapshotPipelineRunsList.render Fixture.filteredThreeRuns
         (Fixture.snapshotProps Fixture.three_runs) = Normal el
       ∧ shown el = Some (ShownEmptyState (FilteredEmptyStateMsg []))).
Proof.
  pose proof (@empty_state_selection Fixture.filteredNoRuns)
    as (Hcommit & Hsnapshot & Hlist & _).
  pose proof (@empty_state_selection Fixture.unfiltered)
    as (_ & _ & Hlist' & _).
  pose proof (@empty_state_selection Fixture.filteredThreeRuns)
    as (_ & _ & _ & Hcommit3 & Hlist3 & Hsnapshot3).
  split_and!.
  - exact (Hcommit _ eq_refl eq_refl eq_refl eq_refl).
  - exact (Hsnapshot (Fixture.snapshotProps []) _ _
             eq_refl eq_refl eq_refl eq_refl).
  - exact (Hlist Fixture.listProps _ eq_refl eq_refl eq_refl eq_refl eq_refl).
  - exact (Hlist' Fixture.listProps _ eq_refl eq_refl eq_refl eq_refl eq_refl).
  - refine (Hcommit3 _ eq_refl eq_refl _ eq_refl eq_refl eq_refl).
    discriminate.
  - refine (Hlist3 Fixture.listProps _ eq_refl eq_refl _ eq_refl eq_refl eq_refl).
    discriminate.
  - refine (Hsnapshot3 (Fixture.snapshotProps Fixture.three_runs) _ _
              eq_refl _ eq_refl eq_refl eq_refl eq_refl).
    discriminate.
Defined.

(** ** Facet options *)

Lemma or_zero_default x : or_zero x = default 0%nat x.
Proof. by destruct x as [[|n]|]. Qed.

Lemma map_get_set m k v k' :
  map_get (map_set m k v) k' = if String.eqb k' k then Some v else map_get m k'.
Proof.
  induction m as [|[k0 v0] m IH]; simpl; [done|].
  destruct (String.eqb_spec k k0) as [->|Hne]; simpl.
  - by destruct (String.eqb k' k0).
  - destruct (String.eqb_spec k' k0) as [->|Hne'].
    + by destruct (String.eqb_spec k0 k); [congruence|].
    + apply IH.
Qed.

Lemma elem_of_keys_map_set m k v k' :
  k' ∈ (map_set m k v).*1 ↔ k' = k ∨ k' ∈ m.*1.
Proof.
  induction m as [|[k0 v0] m IH]; simpl.
  - rewrite elem_of_cons. tauto.
  - destruct (String.eqb_spec k k0) as [->|Hne]; simpl.
    + rewrite !elem_of_cons. tauto.
    + rewrite !elem_of_cons, IH. tauto.
Qed.

Lemma NoDup_keys_map_set m k v : NoDup m.*1 → NoDup (map_set m k v).*1.
Proof.
  induction m as [|[k0 v0] m IH]; simpl; intros Hnd.
  - apply NoDup_singleton.
  - apply NoDup_cons in Hnd as [Hk0 Hnd].
    destruct (String.eqb_spec k k0) as [->|Hne]; simpl.
    + by apply NoDup_cons.
    + apply NoDup_cons. split; [|by apply IH].
      rewrite elem_of_keys_map_set. intros [->|?]; done.
Qed.

Lemma elem_of_keys_map_get m k : k ∈ m.*1 ↔ is_Some (map_get m k).
Proof.
  induction m as [|[k0 v0] m IH]; simpl.
  - split; [by intros ?%elem_of_nil | by intros [? ?]].
  - rewrite elem_of_cons, IH.
    destruct (String.eqb_spec k k0) as [->|Hne]; split; eauto.
    + intros [?|?]; [done|tauto].
Qed.

Lemma map_get_elem_of m k v : NoDup m.*1 → (k, v) ∈ m → map_get m k = Some v.
Proof.
  induction m as [|[k0 v0] m IH]; simpl; intros Hnd Hin.
  - by apply elem_of_nil in Hin.
  - apply NoDup_cons in Hnd as [Hk0 Hnd].
    apply elem_of_cons in Hin as [[= -> ->]|Hin].
    + by rewrite String.eqb_refl.
    + destruct (String.eqb_spec k k0) as [->|Hne]; [|by apply IH].
      destruct Hk0. apply list_elem_of_fmap. by exists (k0, v).
Qed.

Lemma sum_map_set m k v :
  (sum_list (map_set m k v).*2 + cnt m k = sum_list m.*2 + v)%nat.
Proof.
  unfold cnt. induction m as [|[k0 v0] m IH]; [simpl; lia|].
  cbn [map_set map_get].
  destruct (String.eqb_spec k k0) as [->|Hne]; rewrite !fmap_cons; simpl; lia.
Qed.

Lemma countType_sum typeMap type :
  sum_list (countType typeMap type).*2
  = (sum_list typeMap.*2 + if truthy type then 1 else 0)%nat.
Proof.
  unfold countType. destruct type as [t|]; simpl; [|lia].
  destruct (truthy_string t); [|lia]. unfold countInto.
  pose proof (sum_map_set typeMap t (or_zero (map_get typeMap t) + 1)).
  rewrite or_zero_default in *. unfold cnt in *. lia.
Qed.

Lemma fold_countType_sum types typeMap :
  sum_list (fold_left countType types typeMap).*2
  = (sum_list typeMap.*2 + length (List.filter truthy types))%nat.
Proof.
  revert typeMap. induction types as [|type types IH]; intros m; simpl; [lia|].
  rewrite IH, countType_sum. destruct (truthy type); simpl; lia.
Qed.

Lemma countType_cnt typeMap type v :
  cnt (countType typeMap type) v
  = (cnt typeMap v + if countsFor v type then 1 else 0)%nat.
Proof.
  unfold countType, countsFor, cnt. destruct type as [t|]; simpl; [|lia].
  destruct (truthy_string t) eqn:Ht; simpl; [|lia].
  unfold countInto. rewrite map_get_set, or_zero_default.
  destruct (String.eqb_spec v t) as [->|Hne].
  - rewrite bool_decide_eq_true_2 by done. simpl. lia.
  - rewrite bool_decide_eq_false_2 by congruence. lia.
Qed.

Lemma countType_keys typeMap type v :
  v ∈ (countType typeMap type).*1 ↔ v ∈ typeMap.*1 ∨ countsFor v type = true.
Proof.
  unfold countType, countsFor. destruct type as [t|]; simpl.
  2: { split; [auto|]. by intros [?|?]. }
  destruct (truthy_string t) eqn:Ht; simpl.
  2: { split; [auto|]. by intros [?|?]. }
  unfold countInto. rewrite elem_of_keys_map_set, bool_decide_eq_true.
  split; intros [?|?]; auto; [right|left]; congruence.
Qed.

Lemma countType_NoDup typeMap type :
  NoDup typeMap.*1 → NoDup (countType typeMap type).*1.
Proof.
  unfold countType. destruct type as [t|]; [|done].
  destruct (truthy_string t); [|done]. apply NoDup_keys_map_set.
Qed.

(** The map after the loop over the labels [types]. *)
Lemma fold_countType types typeMap :
  NoDup typeMap.*1 →
  let result := fold_left countType types typeMap in
  NoDup result.*1
  ∧ (∀ v, cnt result v
          = (cnt typeMap v + length (List.filter (countsFor v) types))%nat)
  ∧ (∀ v, v ∈ result.*1
          ↔ v ∈ typeMap.*1 ∨ ∃ type, type ∈ types ∧ countsFor v type = true).
Proof.
  revert typeMap. induction types as [|type types IH]; simpl; intros m Hnd.
  - split_and!; [done|intros; lia|]. intros v. split; [auto|].
    intros [?|(t & Ht%elem_of_nil & _)]; done.
  - destruct (IH (countType m type) (countType_NoDup m type Hnd))
      as (Hnd' & Hcnt & Hkeys).
    split_and!; [done| |].
    + intros v. rewrite Hcnt, countType_cnt.
      destruct (countsFor v type); simpl; lia.
    + intros v. rewrite Hkeys, countType_keys. split.
      * intros [[?|?]|(t & Ht & Hc)]; [by left| |].
        -- right. exists type. split; [apply elem_of_cons; auto|done].
        -- right. exists t. split; [apply elem_of_cons; auto|done].
      * intros [?|(t & [->|Ht]%elem_of_cons & Hc)]; [by left; left| |].
        -- by left; right.
        -- right. by exists t.
Qed.

Section TypeFacet.
Context `{Collaborators}.

Lemma typeLabel_has_labels plr :
  has_labels plr → typeLabel plr = Normal (typeLabel_opt plr).
Proof.
  intros (m & ls & Hm & Hls). unfold typeLabel, typeLabel_opt.
  rewrite Hm. simpl. by rewrite Hls.
Qed.

Lemma typeLabel_throws plr : ¬ has_labels plr → typeLabel plr = ThrowTypeError.
Proof.
  unfold has_labels, typeLabel. intros Hno.
  destruct (metadata plr) as [m|]; [|done].
  destruct (labels m) as [ls|] eqn:Hls; [|done].
  destruct Hno. eauto.
Qed.

(** On records that all have labels, the loop of the commit tab and of the
    snapshot list fills the map like the loop of the application view. *)
Lemma forEach_typeLabel data typeMap :
  Forall has_labels data →
  forEach (λ typeMap plr, type ← typeLabel plr; Normal (countType typeMap type))
    data typeMap
  = Normal (fold_left (λ typeMap plr, countType typeMap (typeLabel_opt plr))
              data typeMap).
Proof.
  intros Hall. revert typeMap.
  induction Hall as [|plr data Hplr Hall IH]; intros typeMap; simpl; [done|].
  rewrite (typeLabel_has_labels plr Hplr). simpl. apply IH.
Qed.

(** A record without labels stops it with a [TypeError]. *)
Lemma forEach_typeLabel_throws data typeMap :
  ¬ Forall has_labels data →
  forEach (λ typeMap plr, type ← typeLabel plr; Normal (countType typeMap type))
    data typeMap
  = ThrowTypeError.
Proof.
  revert typeMap. induction data as [|plr data IH]; intros typeMap Hno; simpl.
  { destruct Hno. constructor. }
  destruct (typeLabel plr) as [type|] eqn:Ht; simpl; [|done].
  apply IH. intros Hall. apply Hno. constructor; [|done].
  unfold typeLabel, has_labels in *.
  destruct (metadata plr) as [m|]; [|done].
  destruct (labels m) as [ls|] eqn:Hls; [eauto|done].
Qed.

Lemma fold_left_typeLabel_opt data typeMap :
  fold_left (λ typeMap plr, countType typeMap (typeLabel_opt plr)) data typeMap
  = fold_left countType (typeLabel_opt <$> data) typeMap.
Proof.
  revert typeMap. induction data as [|plr data IH]; intros typeMap; simpl;
    [done|apply IH].
Qed.

Lemma countsFor_carries v plr :
  countsFor v (typeLabel_opt plr) = true ↔ v ≠ "" ∧ typeLabel_opt plr = Some v.
Proof.
  unfold countsFor. rewrite andb_true_iff, bool_decide_eq_true.
  split.
  - intros [Ht Hv]. rewrite Hv in Ht. simpl in Ht. split; [|done].
    intros ->. done.
  - intros [Hv Ht]. rewrite Ht. split; [|done]. simpl.
    unfold truthy_string. by destruct (String.eqb_spec v "").
Qed.

Lemma length_filter_countsFor v data :
  v ≠ "" →
  length (List.filter (countsFor v) (typeLabel_opt <$> data))
  = length (List.filter (λ plr, bool_decide (typeLabel_opt plr = Some v)) data).
Proof.
  intros Hv. induction data as [|plr data IH]; [done|].
  rewrite fmap_cons. cbn [List.filter].
  destruct (countsFor v (typeLabel_opt plr)) eqn:Hc.
  - apply countsFor_carries in Hc as [_ Hc].
    rewrite bool_decide_eq_true_2 by done. cbn [length]. by rewrite IH.
  - destruct (bool_decide_reflect (typeLabel_opt plr = Some v)) as [Ht|Ht];
      [|done].
    assert (countsFor v (typeLabel_opt plr) = true)
      by by apply countsFor_carries.
    congruence.
Qed.

(** The options built from the map of the loop are those of the dataset,
    whatever the display label. *)
Lemma typeOptions_counts_types display data :
  counts_types data
    (typeOptions display
       (fold_left (λ typeMap plr, countType typeMap (typeLabel_opt plr))
          data [])).
Proof.
  rewrite fold_left_typeLabel_opt.
  destruct (fold_countType (typeLabel_opt <$> data) []) as (Hnd & Hcnt & Hkeys);
    [constructor|].
  set (typeMap := fold_left countType (typeLabel_opt <$> data) []) in *.
  assert (Hvalues : value <$> typeOptions display typeMap = typeMap.*1).
  { unfold typeOptions. rewrite <- list_fmap_compose.
    apply list_fmap_ext. by intros i [type n]. }
  assert (Hkey : ∀ v, v ∈ typeMap.*1
                      ↔ v ≠ "" ∧ ∃ plr, plr ∈ data ∧ typeLabel_opt plr = Some v).
  { intros v. rewrite Hkeys. split.
    - intros [Hv%elem_of_nil|(type & Hin & Hc)]; [done|].
      apply list_elem_of_fmap in Hin as (plr & -> & Hin).
      apply countsFor_carries in Hc as [Hv Ht]. eauto.
    - intros (Hv & plr & Hin & Ht). right. exists (typeLabel_opt plr).
      split; [apply list_elem_of_fmap; eauto|].
      by apply countsFor_carries. }
  split_and!.
  - by rewrite Hvalues.
  - intros v. by rewrite Hvalues.
  - intros o Ho. unfold typeOptions in Ho.
    apply list_elem_of_fmap in Ho as ([type n] & -> & Hin). simpl.
    assert (Htype : type ∈ typeMap.*1)
      by (apply list_elem_of_fmap; by exists (type, n)).
    apply Hkey in Htype as [Hne _].
    rewrite <- length_filter_countsFor by done.
    specialize (Hcnt type). unfold cnt in Hcnt.
    rewrite (map_get_elem_of typeMap type n Hnd Hin) in Hcnt. simpl in Hcnt.
    lia.
  - assert (Hcounts : count <$> typeOptions display typeMap = typeMap.*2).
    { unfold typeOptions. rewrite <- list_fmap_compose.
      apply list_fmap_ext. by intros i [type n]. }
    rewrite Hcounts. unfold typeMap. rewrite fold_countType_sum. simpl.
    clear. induction data as [|plr data IH]; [done|].
    rewrite fmap_cons. cbn [List.filter].
    destruct (truthy (typeLabel_opt plr)); cbn [length]; by rewrite IH.
Qed.

(** X14.  [getOptions] of the type facet returns one option per distinct
    non-empty value of the pipeline-type label in the dataset, its count
    being the number of records that carry the value, and the counts add
    up to the number of records with a non-empty type label.  The
    application view computes this for every dataset; the commit tab and
    the snapshot list compute it for every dataset whose records all have
    [metadata.labels]. *)
Theorem type_facet_option_counts (data : list PipelineRunKind) :
  (∃ opts,
     PipelineRunsListView.getOptions data = Normal opts
     ∧ counts_types data opts)
  ∧ (Forall has_labels data →
     ∃ opts,
       CommitsPipelineRunTab.getOptions data = Normal opts
       ∧ counts_types data opts)
  ∧ (Forall has_labels data →
     ∃ opts,
       SnapshotPipelineRunsList.getOptions data = Normal opts
       ∧ counts_types data opts).
Proof.
  split_and!.
  - eexists. split; [reflexivity|]. apply typeOptions_counts_types.
  - intros Hall. eexists. split.
    + unfold CommitsPipelineRunTab.getOptions.
      by rewrite forEach_typeLabel.
    + apply typeOptions_counts_types.
  - intros Hall. eexists. split.
    + unfold SnapshotPipelineRunsList.getOptions.
      by rewrite forEach_typeLabel.
    + apply typeOptions_counts_types.
Qed.

End TypeFacet.

(** The example of the specification, types build, build, test, with two
    more records that have no type: the options are build (2) and
    test (1). *)
Lemma type_facet_option_counts_witness :
  let C := Fixture.collaborators [] (Fixture.fetchOf [] false) in
  @CommitsPipelineRunTab.getOptions C Fixture.five_runs
  = Normal [ {| value := "build"; label := "Build"; count := 2 |};
             {| value := "test"; label := "Test"; count := 1 |} ]
  ∧ @SnapshotPipelineRunsList.getOptions C Fixture.five_runs
    = Normal [ {| value := "build"; label := "build"; count := 2 |};
               {| value := "test"; label := "test"; count := 1 |} ]
  ∧ @counts_types C Fixture.five_runs
      [ {| value := "build"; label := "Build"; count := 2 |};
        {| value := "test"; label := "Test"; count := 1 |} ].
Proof.
  intros C.
  assert (Hall : Forall has_labels Fixture.five_runs).
  { repeat constructor; eexists _, _; split; reflexivity. }
  destruct (@type_facet_option_counts C Fixture.five_runs)
    as (_ & Hcommit & Hsnapshot).
  destruct (Hcommit Hall) as (opts & Hopts & Hspec).
  destruct (Hsnapshot Hall) as (opts' & Hopts' & _).
  vm_compute in Hopts. injection Hopts as <-.
  vm_compute in Hopts'. injection Hopts' as <-.
  split_and!; [reflexivity..|exact Hspec].
Defined.

(** C6.  A dataset with a record that has no [metadata.labels]: build,
    such a record, test.  [getOptions] of the type facet returns no
    options in the commit tab and in the snapshot list, where the
    unguarded read [plr?.metadata.labels[...]] raises a [TypeError] at the
    second record.  The application view, which reads
    [plr?.metadata?.labels?.[...]], returns one option for build and one
    for test, each with count 1, and nothing for the record without a
    type label.  The same happens when that record is the whole
    dataset. *)
Theorem type_facet_getOptions_unguarded_labels :
  let C := Fixture.collaborators [] (Fixture.fetchOf [] false) in
  let build := Fixture.run "r1" (Some "build") None in
  let test := Fixture.run "r3" (Some "test") None in
  @CommitsPipelineRunTab.getOptions C [build; Fixture.bare; test]
  = ThrowTypeError
  ∧ @SnapshotPipelineRunsList.getOptions C [build; Fixture.bare; test]
    = ThrowTypeError
  ∧ @PipelineRunsListView.getOptions C [build; Fixture.bare; test]
    = Normal [ {| value := "build"; label := "Build"; count := 1 |};
               {| value := "test"; label := "Test"; count := 1 |} ]
  ∧ @CommitsPipelineRunTab.getOptions C [Fixture.bare] = ThrowTypeError
  ∧ @SnapshotPipelineRunsList.getOptions C [Fixture.bare] = ThrowTypeError
  ∧ @PipelineRunsListView.getOptions C [Fixture.bare] = Normal [].
Proof. by split_and!. Qed.

(** * Further properties *)

(** ** Options of a facet that reads a value off each record *)

Section KeyedCounts.
Variable key : PipelineRunKind → option string.

Lemma fold_left_keyed data typeMap :
  fold_left (λ typeMap plr, countType typeMap (key plr)) data typeMap
  = fold_left countType (key <$> data) typeMap.
Proof.
  revert typeMap. induction data as [|plr data IH]; intros typeMap; simpl;
    [done|apply IH].
Qed.

Lemma countsFor_key v plr :
  countsFor v (key plr) = true ↔ v ≠ "" ∧ key plr = Some v.
Proof.
  unfold countsFor. rewrite andb_true_iff, bool_decide_eq_true. split.
  - intros [Ht Hv]. rewrite Hv in Ht. simpl in Ht. split; [|done].
    by intros ->.
  - intros [Hv Ht]. rewrite Ht. split; [|done]. simpl.
    unfold truthy_string. by destruct (String.eqb_spec v "").
Qed.

Lemma length_filter_countsFor_key v data :
  v ≠ "" →
  length (List.filter (countsFor v) (key <$> data))
  = length (List.filter (λ plr, bool_decide (key plr = Some v)) data).
Proof.
  intros Hv. induction data as [|plr data IH]; [done|].
  rewrite fmap_cons. cbn [List.filter].
  destruct (countsFor v (key plr)) eqn:Hc.
  - apply countsFor_key in Hc as [_ Hc].
    rewrite bool_decide_eq_true_2 by done. cbn [length]. by rewrite IH.
  - destruct (bool_decide_reflect (key plr = Some v)) as [Ht|Ht]; [|done].
    assert (countsFor v (key plr) = true) by by apply countsFor_key.
    congruence.
Qed.

Lemma length_filter_truthy_key data :
  length (List.filter truthy (key <$> data))
  = length (List.filter (λ plr, truthy (key plr)) data).
Proof.
  induction data as [|plr data IH]; [done|].
  rewrite fmap_cons. cbn [List.filter].
  destruct (truthy (key plr)); cbn [length]; by rewrite IH.
Qed.

Lemma typeOptions_values display typeMap :
  value <$> typeOptions display typeMap = typeMap.*1.
Proof.
  unfold typeOptions. rewrite <- list_fmap_compose.
  apply list_fmap_ext. by intros i [type n].
Qed.

Lemma typeOptions_counts display typeMap :
  count <$> typeOptions display typeMap = typeMap.*2.
Proof.
  unfold typeOptions. rewrite <- list_fmap_compose.
  apply list_fmap_ext. by intros i [type n].
Qed.

(** The options built from the map that the counting loop leaves. *)
Lemma typeOptions_counts_by display data :
  counts_by key data
    (typeOptions display
       (fold_left (λ typeMap plr, countType typeMap (key plr)) data [])).
Proof.
  rewrite fold_left_keyed.
  destruct (fold_countType (key <$> data) []) as (Hnd & Hcnt & Hkeys);
    [constructor|].
  set (typeMap := fold_left countType (key <$> data) []) in *.
  assert (Hkey : ∀ v, v ∈ typeMap.*1
                      ↔ v ≠ "" ∧ ∃ plr, plr ∈ data ∧ key plr = Some v).
  { intros v. rewrite Hkeys. split.
    - intros [Hv%elem_of_nil|(type & Hin & Hc)]; [done|].
      apply list_elem_of_fmap in Hin as (plr & -> & Hin).
      apply countsFor_key in Hc as [Hv Ht]. eauto.
    - intros (Hv & plr & Hin & Ht). right. exists (key plr).
      split; [apply list_elem_of_fmap; eauto|].
      by apply countsFor_key. }
  split_and!.
  - by rewrite typeOptions_values.
  - intros v. by rewrite typeOptions_values.
  - intros o Ho. unfold typeOptions in Ho.
    apply list_elem_of_fmap in Ho as ([type n] & -> & Hin). simpl.
    assert (Htype : type ∈ typeMap.*1)
      by (apply list_elem_of_fmap; by exists (type, n)).
    apply Hkey in Htype as [Hne _].
    rewrite <- length_filter_countsFor_key by done.
    specialize (Hcnt type). unfold cnt in Hcnt.
    rewrite (map_get_elem_of typeMap type n Hnd Hin) in Hcnt. simpl in Hcnt.
    lia.
  - rewrite typeOptions_counts. unfold typeMap.
    rewrite fold_countType_sum. simpl. apply length_filter_truthy_key.
Qed.

End KeyedCounts.

(** ** Order of the options *)

Lemma keys_map_set m k v :
  (map_set m k v).*1 = if decide (k ∈ m.*1) then m.*1 else m.*1 ++ [k].
Proof.
  induction m as [|[k0 v0] m IH]; [done|]. cbn [map_set].
  destruct (String.eqb_spec k k0) as [->|Hne].
  - rewrite !fmap_cons. simpl. rewrite decide_True; [done|].
    apply elem_of_cons. by left.
  - rewrite !fmap_cons, IH. simpl.
    destruct (decide (k ∈ m.*1)) as [Hin|Hin].
    + rewrite decide_True; [done|]. apply elem_of_cons. by right.
    + rewrite decide_False; [done|]. rewrite elem_of_cons. by intros [?|?].
Qed.

Lemma first_seen_order_app keys keys' values :
  first_seen_order keys values → first_seen_order (keys ++ keys') values.
Proof.
  intros Hord i j u v Hij Hu Hv.
  destruct (Hord i j u v Hij Hu Hv) as (n & Hn & Hbefore).
  pose proof (lookup_lt_Some _ _ _ Hn) as Hlen.
  exists n. split.
  - by rewrite lookup_app_l.
  - intros m Hm. rewrite lookup_app_l by lia. by apply Hbefore.
Qed.

(** The keys of the map that the counting loop leaves are in the order in
    which the loop first met them. *)
Lemma fold_countType_order types :
  first_seen_order types (fold_left countType types []).*1.
Proof.
  induction types as [|type types IH] using rev_ind.
  { intros i j u v _ Hu. simpl in Hu. by rewrite lookup_nil in Hu. }
  rewrite fold_left_app. cbn [fold_left].
  destruct (fold_countType types []) as (_ & _ & Hkeys); [constructor|].
  set (typeMap := fold_left countType types []) in *.
  assert (Hsame : first_seen_order (types ++ [type]) typeMap.*1)
    by by apply first_seen_order_app.
  unfold countType. destruct type as [t|]; [|done].
  destruct (truthy_string t) eqn:Ht; [|done].
  unfold countInto. rewrite keys_map_set.
  destruct (decide (t ∈ typeMap.*1)) as [Hin|Hnew]; [done|].
  intros i j u v Hij Hu Hv.
  destruct (decide (j < length typeMap.*1)%nat) as [Hj|Hj].
  { rewrite lookup_app_l in Hu, Hv by lia. by apply (Hsame i j). }
  apply lookup_lt_Some in Hv as Hjlen. rewrite length_app in Hjlen.
  simpl in Hjlen.
  assert (j = length typeMap.*1) as -> by lia.
  rewrite lookup_app_l in Hu by lia.
  rewrite lookup_app_r, Nat.sub_diag in Hv by lia. injection Hv as <-.
  assert (Hin : u ∈ typeMap.*1) by (eapply list_elem_of_lookup; eauto).
  apply Hkeys in Hin as [Hin%elem_of_nil|(type & Hin & Hc)]; [done|].
  unfold countsFor in Hc. apply andb_true_iff in Hc as [_ Hc].
  apply bool_decide_eq_true in Hc as ->.
  apply list_elem_of_lookup in Hin as [n Hn].
  pose proof (lookup_lt_Some _ _ _ Hn) as Hlen.
  exists n. split; [by rewrite lookup_app_l|].
  intros m Hm. rewrite lookup_app_l by lia. intros Hv.
  apply Hnew, Hkeys. right. exists (Some t).
  split; [eapply list_elem_of_lookup; eauto|].
  unfold countsFor. simpl. rewrite Ht. by rewrite bool_decide_eq_true_2.
Qed.

(** ** The status facet *)

Section StatusFacet.
Context `{Collaborators}.

(** The loop of the status facet is the counting loop over the derived
    statuses. *)
Lemma statusConfig_getOptions :
  config_getOptions statusConfig
  = Some (λ data,
      Normal (typeOptions (λ status, status)
                (fold_left (λ statusMap plr,
                              countType statusMap (Some (pipelineRunStatus plr)))
                   data []))).
Proof. reflexivity. Qed.

(** X1.  In each of the three views the facet bound to the [status]
    parameter returns, for every dataset, one option per distinct
    non-empty status that [pipelineRunStatus] derives for a record of the
    dataset, labelled with the status itself and counting the records
    with that status, in the order in which the statuses first occur;
    records with an empty status add nothing. *)
Theorem status_facet_option_counts (data : list PipelineRunKind) :
  ∃ getOptions opts,
    (facet CommitsPipelineRunTab.filterConfigs "status"
       ≫= config_getOptions) = Some getOptions
    ∧ (facet PipelineRunsListView.filterConfigs "status"
         ≫= config_getOptions) = Some getOptions
    ∧ (facet SnapshotPipelineRunsList.filterConfigs "status"
         ≫= config_getOptions) = Some getOptions
    ∧ getOptions data = Normal opts
    ∧ counts_by (λ plr, Some (pipelineRunStatus plr)) data opts
    ∧ first_seen_order ((λ plr, Some (pipelineRunStatus plr)) <$> data)
        (value <$> opts)
    ∧ Forall (λ o, label o = value o) opts.
Proof.
  eexists _, _. split_and!; [reflexivity..| | |].
  - apply (typeOptions_counts_by (λ plr, Some (pipelineRunStatus plr))).
  - change (first_seen_order ((λ plr, Some (pipelineRunStatus plr)) <$> data)
              (value <$> typeOptions (λ status, status)
                 (fold_left (λ statusMap plr,
                               countType statusMap
                                 (Some (pipelineRunStatus plr))) data []))).
    rewrite typeOptions_values, fold_left_keyed. apply fold_countType_order.
  - apply Forall_forall. intros o Ho. unfold typeOptions in Ho.
    by apply list_elem_of_fmap in Ho as ([status n] & -> & _).
Qed.

End StatusFacet.

(** ** The type facet across the three views *)

Section TypeFacetViews.
Context `{Collaborators}.

Lemma fold_countType_skip types typeMap :
  fold_left countType (List.filter truthy types) typeMap
  = fold_left countType types typeMap.
Proof.
  revert typeMap. induction types as [|type types IH]; intros typeMap; [done|].
  cbn [List.filter]. destruct (truthy type) eqn:Ht; cbn [fold_left].
  - apply IH.
  - rewrite IH. f_equal. unfold countType.
    destruct type as [t|]; [|done]. simpl in Ht. by rewrite Ht.
Qed.

Lemma filter_fmap_truthy (data : list PipelineRunKind) :
  typeLabel_opt <$> List.filter (λ plr, truthy (typeLabel_opt plr)) data
  = List.filter truthy (typeLabel_opt <$> data).
Proof.
  induction data as [|plr data IH]; [done|].
  rewrite fmap_cons. cbn [List.filter].
  destruct (truthy (typeLabel_opt plr)); [rewrite fmap_cons|]; by rewrite IH.
Qed.

(** X2.  [getOptions] of the type facet in the commit tab and in the
    snapshot list raises a [TypeError] exactly when some record of the
    dataset has no [metadata.labels] object, whatever the other records
    are; in the application view it always returns, and what it returns
    does not change when the records without a (non-empty) type label are
    taken out of the dataset. *)
Theorem type_facet_getOptions_domain (data : list PipelineRunKind) :
  (CommitsPipelineRunTab.getOptions data = ThrowTypeError
   ↔ ¬ Forall has_labels data)
  ∧ (SnapshotPipelineRunsList.getOptions data = ThrowTypeError
     ↔ ¬ Forall has_labels data)
  ∧ (∃ opts, PipelineRunsListView.getOptions data = Normal opts)
  ∧ PipelineRunsListView.getOptions
      (List.filter (λ plr, truthy (typeLabel_opt plr)) data)
    = PipelineRunsListView.getOptions data.
Proof.
  split_and!.
  - unfold CommitsPipelineRunTab.getOptions. split.
    + intros Hthrow Hall. by rewrite forEach_typeLabel in Hthrow.
    + intros Hno. by rewrite forEach_typeLabel_throws.
  - unfold SnapshotPipelineRunsList.getOptions. split.
    + intros Hthrow Hall. by rewrite forEach_typeLabel in Hthrow.
    + intros Hno. by rewrite forEach_typeLabel_throws.
  - by eexists.
  - unfold PipelineRunsListView.getOptions.
    by rewrite !fold_left_typeLabel_opt, filter_fmap_truthy,
      fold_countType_skip.
Qed.

(** X3.  On a dataset whose records all have [metadata.labels], the three
    views compute the same type options, in the same order: the commit
    tab returns what the application view returns, and the snapshot list
    returns the same values and counts with the raw value as label, where
    the other two capitalize it. *)
Theorem type_facet_views_agree (data : list PipelineRunKind) :
  Forall has_labels data →
  ∃ opts,
    PipelineRunsListView.getOptions data = Normal opts
    ∧ CommitsPipelineRunTab.getOptions data = Normal opts
    ∧ SnapshotPipelineRunsList.getOptions data = Normal (rawLabel <$> opts)
    ∧ Forall (λ o, label o = capitalize (value o)) opts.
Proof.
  intros Hall. eexists. split_and!.
  - reflexivity.
  - unfold CommitsPipelineRunTab.getOptions. by rewrite forEach_typeLabel.
  - unfold SnapshotPipelineRunsList.getOptions.
    rewrite forEach_typeLabel by done. simpl. f_equal.
    unfold typeOptions. rewrite <- list_fmap_compose.
    apply list_fmap_ext. by intros i [type n].
  - apply Forall_forall. intros o Ho. unfold typeOptions in Ho.
    by apply list_elem_of_fmap in Ho as ([type n] & -> & _).
Qed.

End TypeFacetViews.

Section TypeFacetOrder.
Context `{Collaborators}.

(** X4.  The options of the type facet are listed in the order in which
    their values first occur in the dataset: when the option for [u]
    stands before the option for [v], some record with type [u] has no
    record with type [v] at or before it.  This holds in the application
    view for every dataset, and in the commit tab and the snapshot list
    for every dataset whose records have [metadata.labels]. *)
Theorem type_facet_option_order (data : list PipelineRunKind) :
  (∃ opts,
     PipelineRunsListView.getOptions data = Normal opts
     ∧ first_seen_order (typeLabel_opt <$> data) (value <$> opts))
  ∧ (Forall has_labels data →
     ∃ opts,
       CommitsPipelineRunTab.getOptions data = Normal opts
       ∧ first_seen_order (typeLabel_opt <$> data) (value <$> opts))
  ∧ (Forall has_labels data →
     ∃ opts,
       SnapshotPipelineRunsList.getOptions data = Normal opts
       ∧ first_seen_order (typeLabel_opt <$> data) (value <$> opts)).
Proof.
  assert (Hord : ∀ display,
            first_seen_order (typeLabel_opt <$> data)
              (value <$> typeOptions display
                 (fold_left (λ typeMap plr,
                               countType typeMap (typeLabel_opt plr)) data []))).
  { intros display. rewrite typeOptions_values, fold_left_typeLabel_opt.
    apply fold_countType_order. }
  split_and!.
  - eexists. split; [reflexivity|apply Hord].
  - intros Hall. eexists. split; [|apply Hord].
    unfold CommitsPipelineRunTab.getOptions. by rewrite forEach_typeLabel.
  - intros Hall. eexists. split; [|apply Hord].
    unfold SnapshotPipelineRunsList.getOptions. by rewrite forEach_typeLabel.
Qed.

End TypeFacetOrder.

(** ** Selections *)

Lemma includes_true (arr : list string) (x : option string) :
  includes arr x = true ↔ ∃ s, x = Some s ∧ s ∈ arr.
Proof.
  unfold includes. destruct x as [s|].
  - rewrite existsb_exists. split.
    + intros (s' & Hin & ->%String.eqb_eq). exists s'.
      by rewrite list_elem_of_In.
    + intros (s' & [= <-] & Hin). exists s.
      by rewrite <- list_elem_of_In, String.eqb_refl.
  - split; [done|]. by intros (s & ? & _).
Qed.

Lemma includes_singleton (v : string) (x : option string) :
  includes [v] x = bool_decide (x = Some v).
Proof.
  unfold includes. destruct x as [s|]; cbn [existsb].
  - rewrite orb_false_r. destruct (String.eqb_spec s v) as [->|Hne].
    + by rewrite bool_decide_eq_true_2.
    + rewrite bool_decide_eq_false_2; [done|]. congruence.
  - by rewrite bool_decide_eq_false_2.
Qed.

(** A filter whose test returns normally on every element. *)
Lemma filterM_Normal {A} (f : A → completion bool) (g : A → bool) l :
  Forall (λ x, f x = Normal (g x)) l → filterM f l = Normal (List.filter g l).
Proof.
  induction 1 as [|x l Hx Hl IH]; [done|]. simpl. rewrite Hx, IH. simpl.
  by destruct (g x).
Qed.

Section TypeSelection.
Context `{Collaborators}.

Lemma CommitsPipelineRunTab_filterFn_labels item v vs :
  has_labels item →
  CommitsPipelineRunTab.filterFn item (Some (v :: vs))
  = Normal (includes (v :: vs) (typeLabel_opt item)).
Proof.
  intros Hl. unfold CommitsPipelineRunTab.filterFn.
  by rewrite typeLabel_has_labels.
Qed.

Lemma SnapshotPipelineRunsList_filterFn_labels item v vs :
  has_labels item →
  SnapshotPipelineRunsList.filterFn item (Some (v :: vs))
  = Normal (includes (v :: vs) (typeLabel_opt item)).
Proof.
  intros Hl. unfold SnapshotPipelineRunsList.filterFn.
  by rewrite typeLabel_has_labels.
Qed.

(** X5.  [filterFn] of the type facet.  A selection that is no array or
    is empty admits every record, in all three views, without reading the
    record.  For a non-empty selection the application view admits a
    record iff the record has a type label and the label is one of the
    selected values, so a record without a type label matches no
    selection; the commit tab and the snapshot list decide the same on a
    record that has [metadata.labels], and raise a [TypeError] on one
    that has not. *)
Theorem type_filterFn_selection (item : PipelineRunKind) :
  (∀ value, value = None ∨ value = Some [] →
     CommitsPipelineRunTab.filterFn item value = Normal true
     ∧ PipelineRunsListView.filterFn item value = Normal true
     ∧ SnapshotPipelineRunsList.filterFn item value = Normal true)
  ∧ (∀ v vs, ∃ admitted,
       PipelineRunsListView.filterFn item (Some (v :: vs)) = Normal admitted
       ∧ (admitted = true
          ↔ ∃ type, typeLabel_opt item = Some type ∧ type ∈ v :: vs))
  ∧ (∀ v vs, has_labels item →
       CommitsPipelineRunTab.filterFn item (Some (v :: vs))
       = PipelineRunsListView.filterFn item (Some (v :: vs))
       ∧ SnapshotPipelineRunsList.filterFn item (Some (v :: vs))
         = PipelineRunsListView.filterFn item (Some (v :: vs)))
  ∧ (∀ v vs, ¬ has_labels item →
       CommitsPipelineRunTab.filterFn item (Some (v :: vs)) = ThrowTypeError
       ∧ SnapshotPipelineRunsList.filterFn item (Some (v :: vs))
         = ThrowTypeError).
Proof.
  split_and!.
  - by intros value [->| ->].
  - intros v vs. eexists. split; [reflexivity|]. apply includes_true.
  - intros v vs Hl. split.
    + by apply CommitsPipelineRunTab_filterFn_labels.
    + by apply SnapshotPipelineRunsList_filterFn_labels.
  - intros v vs Hno. unfold CommitsPipelineRunTab.filterFn,
      SnapshotPipelineRunsList.filterFn.
    by rewrite typeLabel_throws.
Qed.

(** X6.  Selecting one option that [getOptions] of the type facet offers
    for a dataset keeps, under [filterFn] of the same facet, exactly the
    records that carry the option's value, and they are as many as the
    option's count says.  For the commit tab and the snapshot list the
    records of the dataset have [metadata.labels]. *)
Theorem type_facet_selected_option_count (data : list PipelineRunKind) :
  (∀ opts o,
     PipelineRunsListView.getOptions data = Normal opts → o ∈ opts →
     ∃ kept,
       filterM (λ plr, PipelineRunsListView.filterFn plr (Some [value o])) data
       = Normal kept
       ∧ kept = List.filter
                  (λ plr, bool_decide (typeLabel_opt plr = Some (value o))) data
       ∧ length kept = count o)
  ∧ (Forall has_labels data → ∀ opts o,
       CommitsPipelineRunTab.getOptions data = Normal opts → o ∈ opts →
       ∃ kept,
         filterM (λ plr, CommitsPipelineRunTab.filterFn plr (Some [value o]))
           data = Normal kept
         ∧ kept = List.filter
                    (λ plr, bool_decide (typeLabel_opt plr = Some (value o)))
                    data
         ∧ length kept = count o)
  ∧ (Forall has_labels data → ∀ opts o,
       SnapshotPipelineRunsList.getOptions data = Normal opts → o ∈ opts →
       ∃ kept,
         filterM (λ plr, SnapshotPipelineRunsList.filterFn plr (Some [value o]))
           data = Normal kept
         ∧ kept = List.filter
                    (λ plr, bool_decide (typeLabel_opt plr = Some (value o)))
                    data
         ∧ length kept = count o).
Proof.
  assert (Hcount : ∀ display o,
            o ∈ typeOptions display
                  (fold_left (λ typeMap plr,
                                countType typeMap (typeLabel_opt plr)) data []) →
            length (List.filter
                      (λ plr, bool_decide (typeLabel_opt plr = Some (value o)))
                      data) = count o).
  { intros display o Ho.
    destruct (typeOptions_counts_types display data) as (_ & _ & Hc & _).
    symmetry. by apply Hc. }
  split_and!.
  - intros opts o [= <-] Ho. eexists. split_and!; [|reflexivity|by eapply Hcount].
    apply filterM_Normal, Forall_forall. intros plr _.
    unfold PipelineRunsListView.filterFn. by rewrite includes_singleton.
  - intros Hall opts o Hopts Ho.
    unfold CommitsPipelineRunTab.getOptions in Hopts.
    rewrite forEach_typeLabel in Hopts by done. injection Hopts as <-.
    eexists. split_and!; [|reflexivity|by eapply Hcount].
    apply filterM_Normal. eapply Forall_impl; [exact Hall|].
    intros plr Hl. cbv beta.
    rewrite CommitsPipelineRunTab_filterFn_labels by done.
    by rewrite includes_singleton.
  - intros Hall opts o Hopts Ho.
    unfold SnapshotPipelineRunsList.getOptions in Hopts.
    rewrite forEach_typeLabel in Hopts by done. injection Hopts as <-.
    eexists. split_and!; [|reflexivity|by eapply Hcount].
    apply filterM_Normal. eapply Forall_impl; [exact Hall|].
    intros plr Hl. cbv beta.
    rewrite SnapshotPipelineRunsList_filterFn_labels by done.
    by rewrite includes_singleton.
Qed.

End TypeSelection.

Section StatusSelection.
Context `{Collaborators}.

Lemma includes_Some (arr : list string) (s : string) :
  includes arr (Some s) = bool_decide (s ∈ arr).
Proof.
  destruct (includes arr (Some s)) eqn:Hi; symmetry.
  - apply bool_decide_eq_true. apply includes_true in Hi as (s' & [= <-] & Hin).
    done.
  - apply bool_decide_eq_false. intros Hin.
    assert (includes arr (Some s) = true) by (apply includes_true; eauto).
    congruence.
Qed.

(** X7.  [filterFn] of the status facet, the same function in the three
    views: a selection that is no array or is empty admits every record,
    and a non-empty one admits a record iff the status
    [pipelineRunStatus] derives for it is one of the selected values.
    Selecting one option that [getOptions] of the facet offers for a
    dataset keeps exactly the records with the option's status, as many
    as the option's count says. *)
Theorem status_facet_selected_option_count (data : list PipelineRunKind) :
  ∃ getOptions filterFn,
    ((facet CommitsPipelineRunTab.filterConfigs "status"
        ≫= config_getOptions) = Some getOptions
     ∧ (facet PipelineRunsListView.filterConfigs "status"
          ≫= config_getOptions) = Some getOptions
     ∧ (facet SnapshotPipelineRunsList.filterConfigs "status"
          ≫= config_getOptions) = Some getOptions)
    ∧ ((facet CommitsPipelineRunTab.filterConfigs "status"
          ≫= config_filterFn) = Some filterFn
       ∧ (facet PipelineRunsListView.filterConfigs "status"
            ≫= config_filterFn) = Some filterFn
       ∧ (facet SnapshotPipelineRunsList.filterConfigs "status"
            ≫= config_filterFn) = Some filterFn)
    ∧ (∀ item value, value = None ∨ value = Some [] →
         filterFn item value = Normal true)
    ∧ (∀ item v vs,
         filterFn item (Some (v :: vs))
         = Normal (bool_decide (pipelineRunStatus item ∈ v :: vs)))
    ∧ (∀ opts o,
         getOptions data = Normal opts → o ∈ opts →
         ∃ kept,
           filterM (λ plr, filterFn plr (Some [value o])) data = Normal kept
           ∧ kept = List.filter
                      (λ plr, bool_decide (pipelineRunStatus plr = value o))
                      data
           ∧ length kept = count o).
Proof.
  eexists _, _. split_and!; [reflexivity..| | |].
  - by intros item value [->| ->].
  - intros item v vs. cbv beta iota. by rewrite includes_Some.
  - intros opts o Hopts Ho.
    change (Normal (typeOptions (λ status, status)
                      (fold_left (λ statusMap plr,
                                    countType statusMap
                                      (Some (pipelineRunStatus plr))) data []))
            = Normal opts) in Hopts.
    injection Hopts as <-.
    destruct (typeOptions_counts_by (λ plr, Some (pipelineRunStatus plr))
                (λ status, status) data) as (_ & _ & Hc & _).
    assert (Hfilter :
      List.filter (λ plr, bool_decide (Some (pipelineRunStatus plr)
                                       = Some (value o))) data
      = List.filter (λ plr, bool_decide (pipelineRunStatus plr = value o)) data).
    { apply filter_ext. intros plr. apply bool_decide_ext.
      split; [by intros [= ->]|by intros ->]. }
    eexists. split_and!; [|reflexivity|].
    + apply filterM_Normal, Forall_forall. intros plr _. cbv beta iota.
      f_equal. rewrite includes_Some. apply bool_decide_ext.
      rewrite list_elem_of_singleton. done.
    + rewrite <- Hfilter. symmetry. by apply Hc.
Qed.

End StatusSelection.

(** ** Clearing the filters of the snapshot list *)

Lemma existsb_eqb_elem_of (k : string) (ks : list string) :
  existsb (String.eqb k) ks = true ↔ k ∈ ks.
Proof.
  rewrite existsb_exists. split.
  - intros (k' & Hin & ->%String.eqb_eq). by apply list_elem_of_In.
  - intros Hin. exists k. by rewrite <- list_elem_of_In, String.eqb_refl.
Qed.

Lemma params_get_without (p : URLSearchParams) (ks : list string) k :
  k ∈ ks →
  params_get (List.filter (λ kv, negb (existsb (String.eqb kv.1) ks)) p) k
  = None.
Proof.
  intros Hk. unfold params_get. induction p as [|[k0 v0] p IH]; [done|].
  cbn [List.filter fst]. destruct (existsb (String.eqb k0) ks) eqn:He; [done|].
  cbn [negb List.find fst]. destruct (String.eqb_spec k0 k) as [->|Hne]; [|done].
  apply existsb_eqb_elem_of in Hk. congruence.
Qed.

Lemma params_getAll_without (p : URLSearchParams) (ks : list string) k :
  k ∉ ks →
  params_getAll (List.filter (λ kv, negb (existsb (String.eqb kv.1) ks)) p) k
  = params_getAll p k.
Proof.
  intros Hk. unfold params_getAll. f_equal.
  induction p as [|[k0 v0] p IH]; [done|].
  cbn [List.filter fst]. destruct (String.eqb_spec k0 k) as [->|Hne].
  - assert (existsb (String.eqb k) ks = false) as ->.
    { apply not_true_is_false. by rewrite existsb_eqb_elem_of. }
    cbn [negb List.filter fst]. by rewrite String.eqb_refl, IH.
  - destruct (existsb (String.eqb k0) ks); cbn [negb List.filter fst]; [done|].
    destruct (String.eqb_spec k0 k); [done|]. done.
Qed.

Lemma params_delete_four (p : URLSearchParams) (a b c d : string) :
  params_delete (params_delete (params_delete (params_delete p a) b) c) d
  = List.filter (λ kv, negb (existsb (String.eqb kv.1) [a; b; c; d])) p.
Proof.
  unfold params_delete. induction p as [|[k v] p IH]; [done|].
  cbn [List.filter existsb fst].
  destruct (String.eqb k a); cbn [negb orb List.filter fst]; [done|].
  destruct (String.eqb k b); cbn [negb orb List.filter fst]; [done|].
  destruct (String.eqb k c); cbn [negb orb List.filter fst]; [done|].
  destruct (String.eqb k d); cbn [negb orb List.filter fst]; [done|].
  by rewrite IH.
Qed.

Section ClearFilters.
Context `{Collaborators}.

(** X8.  [handleClearFilters] of the snapshot list installs the current
    query state without the entries whose key is [name], [commit],
    [status] or [type], the keys the view's own filters read, and keeps
    every other entry, in order, an entry under the key [search]
    included.  Afterwards none of those four keys has a value. *)
Theorem snapshot_handleClearFilters :
  concat (config_keys <$> SnapshotPipelineRunsList.filterConfigs)
  = ["name"; "commit"; "status"; "type"]
  ∧ SnapshotPipelineRunsList.handleClearFilters
    = List.filter
        (λ kv, negb (existsb (String.eqb kv.1)
                       ["name"; "commit"; "status"; "type"]))
        useSearchParams
  ∧ (∀ c k,
       c ∈ SnapshotPipelineRunsList.filterConfigs → k ∈ config_keys c →
       params_get SnapshotPipelineRunsList.handleClearFilters k = None)
  ∧ (∀ k,
       k ∉ ["name"; "commit"; "status"; "type"] →
       params_getAll SnapshotPipelineRunsList.handleClearFilters k
       = params_getAll useSearchParams k)
  ∧ params_getAll SnapshotPipelineRunsList.handleClearFilters "search"
    = params_getAll useSearchParams "search".
Proof.
  assert (Hclear : SnapshotPipelineRunsList.handleClearFilters
                   = List.filter
                       (λ kv, negb (existsb (String.eqb kv.1)
                                      ["name"; "commit"; "status"; "type"]))
                       useSearchParams)
    by apply params_delete_four.
  split_and!; [done|done| | |].
  - intros c k Hc Hk. rewrite Hclear. apply params_get_without.
    assert (Hkeys : k ∈ concat (config_keys
                                  <$> SnapshotPipelineRunsList.filterConfigs)).
    { apply list_elem_of_In, in_concat. exists (config_keys c).
      split; [|by apply list_elem_of_In].
      apply list_elem_of_In, list_elem_of_fmap. eauto. }
    exact Hkeys.
  - intros k Hk. rewrite Hclear. by apply params_getAll_without.
  - rewrite Hclear. apply params_getAll_without.
    rewrite !elem_of_cons, elem_of_nil. by intros [?|[?|[?|[?|?]]]].
Qed.

End ClearFilters.

(** ** The sorted and pre-filtered collection of the application view *)

Lemma StronglySorted_filter {A} (R : relation A) (f : A → bool) l :
  StronglySorted R l → StronglySorted R (List.filter f l).
Proof.
  induction 1 as [|x l Hl IH Hx]; [constructor|]. cbn [List.filter].
  destruct (f x); [|done]. constructor; [done|].
  rewrite Forall_forall in Hx. apply Forall_forall. intros y Hy.
  apply Hx. apply list_elem_of_In. apply list_elem_of_In, filter_In in Hy.
  tauto.
Qed.

Section SortedCollection.
Context `{Collaborators}.

Lemma sortedPipelineRuns_Permutation props :
  PipelineRunsListView.sortedPipelineRuns props
  ≡ₚ default [] (pipelineRuns (PipelineRunsListView.fetched props)).
Proof.
  unfold PipelineRunsListView.sortedPipelineRuns.
  destruct (pipelineRuns (PipelineRunsListView.fetched props)) as [runs|];
    [|done].
  simpl. destruct hasToSorted; apply Array_sort_Permutation.
Qed.

(** X9.  [sortedPipelineRuns] holds exactly the fetched records, each as
    often as it was fetched, whatever their start times are and also when
    some have none; when nothing has been fetched yet ([pipelineRuns] is
    [undefined]) it is the empty array. *)
Theorem sortedPipelineRuns_keeps_records props :
  PipelineRunsListView.sortedPipelineRuns props
  ≡ₚ default [] (pipelineRuns (PipelineRunsListView.fetched props))
  ∧ length (PipelineRunsListView.sortedPipelineRuns props)
    = length (default [] (pipelineRuns (PipelineRunsListView.fetched props))).
Proof.
  split; [apply sortedPipelineRuns_Permutation|].
  by rewrite sortedPipelineRuns_Permutation.
Qed.

Hypothesis localeCompare_total :
  ∀ a b, localeCompare a b ≤ 0 ∨ localeCompare b a ≤ 0.
Hypothesis localeCompare_trans :
  ∀ a b c, localeCompare a b ≤ 0 → localeCompare b c ≤ 0 → localeCompare a c ≤ 0.

Lemma Array_sort_compareStartTime_sorted runs :
  Forall (λ r, is_Some (status_startTime r)) runs →
  StronglySorted startsNoEarlier
    (Array_sort PipelineRunsListView.compareStartTime runs).
Proof.
  intros Hall.
  eapply (StronglySorted_weaken
            (before PipelineRunsListView.compareStartTime) startsNoEarlier
            (λ r, is_Some (status_startTime r))).
  - intros x y. by apply before_startsNoEarlier.
  - by rewrite Array_sort_Permutation.
  - apply (Array_sort_sorted PipelineRunsListView.compareStartTime
             (λ r, is_Some (status_startTime r))); [| |done].
    + intros x y [tx Hx] [ty Hy]. unfold before, SortCompare.
      unfold PipelineRunsListView.compareStartTime.
      rewrite Hx, Hy. simpl. destruct (localeCompare_total ty tx); auto.
    + intros x y z [tx Hx] [ty Hy] [tz Hz]. unfold before, SortCompare.
      unfold PipelineRunsListView.compareStartTime.
      rewrite Hx, Hy, Hz. simpl. eauto.
Qed.

(** X10.  [baseFilteredRuns], the collection the generic filters run on:
    without a [customFilter] it is [sortedPipelineRuns]; with one it holds
    exactly the fetched records the predicate accepts.  When every fetched
    record has a [status.startTime] it is still in descending order of
    start time. *)
Theorem baseFilteredRuns_sorted_selection props :
  (PipelineRunsListView.customFilter props = None →
   PipelineRunsListView.baseFilteredRuns props
   = PipelineRunsListView.sortedPipelineRuns props)
  ∧ (∀ customFilter r,
       PipelineRunsListView.customFilter props = Some customFilter →
       r ∈ PipelineRunsListView.baseFilteredRuns props
       ↔ r ∈ default [] (pipelineRuns (PipelineRunsListView.fetched props))
         ∧ customFilter r = true)
  ∧ (Forall (λ r, is_Some (status_startTime r))
       (default [] (pipelineRuns (PipelineRunsListView.fetched props))) →
     StronglySorted startsNoEarlier
       (PipelineRunsListView.baseFilteredRuns props)).
Proof.
  split_and!.
  - intros Hnone. unfold PipelineRunsListView.baseFilteredRuns.
    by rewrite Hnone.
  - intros f r Hf. unfold PipelineRunsListView.baseFilteredRuns. rewrite Hf.
    rewrite list_elem_of_In, filter_In, <- list_elem_of_In.
    by rewrite sortedPipelineRuns_Permutation.
  - intros Hall.
    assert (Hsorted : StronglySorted startsNoEarlier
              (PipelineRunsListView.sortedPipelineRuns props)).
    { unfold PipelineRunsListView.sortedPipelineRuns.
      destruct (pipelineRuns (PipelineRunsListView.fetched props))
        as [runs|]; [|constructor].
      simpl in Hall.
      destruct hasToSorted; by apply Array_sort_compareStartTime_sorted. }
    unfold PipelineRunsListView.baseFilteredRuns.
    destruct (PipelineRunsListView.customFilter props); [|done].
    by apply StronglySorted_filter.
Qed.

End SortedCollection.

(** ** The filter toolbar *)

Section Toolbar.
Context `{Collaborators}.

(** X11.  The filter toolbar next to the table.  Whenever a view shows
    the toolbar, the toolbar gets the view's [filterConfigs] and, as the
    dataset its option counts are computed from, exactly the collection
    the view hands to [useFilteredData].  The snapshot list shows it
    whenever it shows the table.  The commit tab and the application view
    leave it out exactly when no filter is active and nothing has been
    fetched, which in the commit tab cannot happen once the fetch has
    loaded. *)
Theorem toolbar_next_to_table :
  (∀ el p,
     CommitsPipelineRunTab.render = Normal el → tableOf el = Some p →
     ∃ fd,
       useFilteredData
         (default [] (pipelineRuns CommitsPipelineRunTab.fetched))
         CommitsPipelineRunTab.filterConfigs = Normal fd
       ∧ (toolbarOf el = None
          ∨ toolbarOf el
            = Some (CommitsPipelineRunTab.filterConfigs,
                    default [] (pipelineRuns CommitsPipelineRunTab.fetched),
                    "commits-pipeline-runs-filter"))
       ∧ (toolbarOf el = None
          ↔ isFiltered fd = false
            ∧ default [] (pipelineRuns CommitsPipelineRunTab.fetched) = [])
       ∧ (loaded CommitsPipelineRunTab.fetched = true → toolbarOf el ≠ None))
  ∧ (∀ props el p,
       PipelineRunsListView.render props = Normal el → tableOf el = Some p →
       ∃ fd,
         useFilteredData (PipelineRunsListView.baseFilteredRuns props)
           PipelineRunsListView.filterConfigs = Normal fd
         ∧ (toolbarOf el = None
            ∨ toolbarOf el
              = Some (PipelineRunsListView.filterConfigs,
                      PipelineRunsListView.baseFilteredRuns props,
                      "pipeline-runs-filter"))
         ∧ (toolbarOf el = None
            ↔ isFiltered fd = false
              ∧ default [] (pipelineRuns (PipelineRunsListView.fetched props))
                = []))
  ∧ (∀ props el p,
       SnapshotPipelineRunsList.render props = Normal el →
       tableOf el = Some p →
       ∃ byCustomFilter fd,
         SnapshotPipelineRunsList.filteredByCustomFilter props
           = Normal byCustomFilter
         ∧ useFilteredData (default [] byCustomFilter)
             SnapshotPipelineRunsList.filterConfigs = Normal fd
         ∧ toolbarOf el
           = Some (SnapshotPipelineRunsList.filterConfigs,
                   default [] byCustomFilter,
                   "snapshot-pipeline-runs-filter")).
Proof.
  split_and!.
  - intros el p. unfold CommitsPipelineRunTab.render.
    destruct (useFilteredData _ _) as [fd|] eqn:Hfd; simpl; [|done].
    destruct (error CommitsPipelineRunTab.fetched); [by intros [= <-]|].
    destruct (loaded CommitsPipelineRunTab.fetched) eqn:Hl;
      destruct (pipelineRuns CommitsPipelineRunTab.fetched) as [[|r runs]|];
      simpl; try (by intros [= <-]); intros [= <-] _; exists fd;
      destruct (isFiltered fd),
        (isFetchingNextPage (nextPage CommitsPipelineRunTab.fetched)); simpl;
      split_and!; try done; try (by left); try (by right);
      try (split; [done|by intros [? ?]]).
  - intros props el p. unfold PipelineRunsListView.render.
    destruct (useFilteredData _ _) as [fd|] eqn:Hfd; simpl; [|done].
    destruct (error _); [by intros [= <-]|].
    intros [= <-] _. exists fd. split; [done|].
    pose proof (sortedPipelineRuns_Permutation props) as Hperm.
    assert (Hempty : PipelineRunsListView.sortedPipelineRuns props = []
                     ↔ default [] (pipelineRuns
                                     (PipelineRunsListView.fetched props)) = []).
    { split; intros Hnil; rewrite Hnil in Hperm.
      - by apply Permutation_nil in Hperm.
      - symmetry in Hperm. by apply Permutation_nil in Hperm. }
    destruct (isFiltered fd),
      (isFetchingNextPage (nextPage (PipelineRunsListView.fetched props))),
      (PipelineRunsListView.sortedPipelineRuns props) as [|r runs];
      simpl; (split; [by auto|]); split; try done;
      try (by intros [? ?]); try (by intros _; split; [|apply Hempty]);
      intros [_ Hnil]; by apply Hempty in Hnil.
  - intros props el p Hr Ht.
    destruct (SnapshotPipelineRunsList_table props el p Hr Ht)
      as (c & fd & runs & Hc & Hfd & Hruns & Hne & Hl & _).
    exists c, fd. split_and!; [done..|].
    unfold SnapshotPipelineRunsList.render in Hr.
    rewrite Hc in Hr. simpl in Hr. rewrite Hfd in Hr. simpl in Hr.
    rewrite Hl, Hruns in Hr. simpl in Hr.
    destruct runs as [|r runs]; [done|]. injection Hr as <-.
    by rewrite orb_true_r.
Qed.

End Toolbar.

(** ** Loading *)

Section Loading.
Context `{Collaborators}.

(** X12.  The snapshot list while its data is loading.  As long as
    [loaded] is false it returns the loading spinner, whatever runs it has
    been given, and neither the empty state nor the table.  The
    [customFilter] is applied before that check: a caller that passes a
    [customFilter] while [snapshotPipelineRuns] is still [undefined] gets
    a [TypeError], loading or not. *)
Theorem snapshot_loading props :
  (∀ byCustomFilter fd,
     SnapshotPipelineRunsList.loaded props = false →
     SnapshotPipelineRunsList.filteredByCustomFilter props
       = Normal byCustomFilter →
     useFilteredData (default [] byCustomFilter)
       SnapshotPipelineRunsList.filterConfigs = Normal fd →
     SnapshotPipelineRunsList.render props
     = Normal (Spinner "snapshot-plr-loading"))
  ∧ (∀ customFilter,
       SnapshotPipelineRunsList.customFilter props = Some customFilter →
       SnapshotPipelineRunsList.snapshotPipelineRuns props = None →
       SnapshotPipelineRunsList.render props = ThrowTypeError)
  ∧ (SnapshotPipelineRunsList.customFilter props = None
     ∨ is_Some (SnapshotPipelineRunsList.snapshotPipelineRuns props) →
     ∃ byCustomFilter,
       SnapshotPipelineRunsList.filteredByCustomFilter props
       = Normal byCustomFilter).
Proof.
  split_and!.
  - intros c fd Hl Hc Hfd. unfold SnapshotPipelineRunsList.render.
    rewrite Hc. simpl. rewrite Hfd. simpl. by rewrite Hl.
  - intros f Hf Hruns. unfold SnapshotPipelineRunsList.render,
      SnapshotPipelineRunsList.filteredByCustomFilter.
    by rewrite Hf, Hruns.
  - unfold SnapshotPipelineRunsList.filteredByCustomFilter.
    intros [->|[runs ->]]; [by eexists|].
    destruct (SnapshotPipelineRunsList.customFilter props); by eexists.
Qed.

(** X13.  Fetching the next page.  In the commit tab and in the
    application view, whenever the table is shown the "Loading more
    pipeline runs" spinner is shown with it exactly while a next page is
    being fetched, and the table is then told it is loaded, so that it
    keeps its rows.  The snapshot list shows no spinner with its table and
    always tells the table it is loaded. *)
Theorem fetching_next_page :
  (∀ el p,
     CommitsPipelineRunTab.render = Normal el → tableOf el = Some p →
     spinnersOf el
     = (if isFetchingNextPage (nextPage CommitsPipelineRunTab.fetched)
        then ["Loading more pipeline runs"] else [])
     ∧ (isFetchingNextPage (nextPage CommitsPipelineRunTab.fetched) = true →
        Table.loaded p = true))
  ∧ (∀ props el p,
       PipelineRunsListView.render props = Normal el → tableOf el = Some p →
       spinnersOf el
       = (if isFetchingNextPage (nextPage (PipelineRunsListView.fetched props))
          then ["Loading more pipeline runs"] else [])
       ∧ (isFetchingNextPage (nextPage (PipelineRunsListView.fetched props))
          = true → Table.loaded p = true))
  ∧ (∀ props el p,
       SnapshotPipelineRunsList.render props = Normal el →
       tableOf el = Some p →
       spinnersOf el = [] ∧ Table.loaded p = true).
Proof.
  split_and!.
  - intros el p Hr Ht.
    destruct (CommitsPipelineRunTab_table el p Hr Ht) as (fd & Hfd & He & ->).
    unfold CommitsPipelineRunTab.render in Hr. rewrite Hfd, He in Hr.
    simpl in Hr.
    destruct (loaded CommitsPipelineRunTab.fetched && _);
      [by injection Hr as <-|].
    injection Hr as <-. split.
    + by destruct (isFiltered fd || _),
        (isFetchingNextPage (nextPage CommitsPipelineRunTab.fetched)).
    + simpl. by intros ->.
  - intros props el p Hr Ht.
    destruct (PipelineRunsListView_table props el p Hr Ht)
      as (fd & Hfd & He & ->).
    unfold PipelineRunsListView.render in Hr. rewrite Hfd, He in Hr.
    simpl in Hr. injection Hr as <-. split.
    + by destruct (isFiltered fd || _),
        (isFetchingNextPage (nextPage (PipelineRunsListView.fetched props))).
    + simpl. by intros ->.
  - intros props el p Hr Ht.
    destruct (SnapshotPipelineRunsList_table props el p Hr Ht)
      as (c & fd & runs & Hc & Hfd & Hruns & Hne & Hl & ->).
    split; [|done].
    unfold SnapshotPipelineRunsList.render in Hr.
    rewrite Hc in Hr. simpl in Hr. rewrite Hfd in Hr. simpl in Hr.
    rewrite Hl, Hruns in Hr. simpl in Hr.
    destruct runs as [|r runs]; [done|]. injection Hr as <-.
    by rewrite orb_true_r.
Qed.

End Loading.

(** ** Examples for the further properties *)

Lemma five_runs_have_labels : Forall has_labels Fixture.five_runs.
Proof. repeat constructor; eexists _, _; split; reflexivity. Qed.

(** The three views on the dataset with types build, build, test, none,
    empty. *)
Lemma type_facet_views_agree_witness :
  let C := Fixture.collaborators [] (Fixture.fetchOf [] false) in
  @PipelineRunsListView.getOptions C Fixture.five_runs
  = Normal [ {| value := "build"; label := "Build"; count := 2 |};
             {| value := "test"; label := "Test"; count := 1 |} ]
  ∧ @CommitsPipelineRunTab.getOptions C Fixture.five_runs
    = @PipelineRunsListView.getOptions C Fixture.five_runs
  ∧ @SnapshotPipelineRunsList.getOptions C Fixture.five_runs
    = Normal [ {| value := "build"; label := "build"; count := 2 |};
               {| value := "test"; label := "test"; count := 1 |} ].
Proof.
  intros C.
  destruct (@type_facet_views_agree C Fixture.five_runs five_runs_have_labels)
    as (opts & Happ & Hcommit & Hsnapshot & _).
  rewrite Hcommit, Hsnapshot, Happ.
  vm_compute in Happ. injection Happ as <-. by split_and!.
Defined.

(** Types test, build, build: the option for test comes first. *)
Lemma type_facet_option_order_witness :
  let C := Fixture.collaborators [] (Fixture.fetchOf [] false) in
  let data := [Fixture.run "r3" (Some "test") None;
               Fixture.run "r1" (Some "build") None;
               Fixture.run "r2" (Some "build") None] in
  ∃ opts,
    @CommitsPipelineRunTab.getOptions C data = Normal opts
    ∧ value <$> opts = ["test"; "build"]
    ∧ first_seen_order (@typeLabel_opt C <$> data) (value <$> opts).
Proof.
  intros C data.
  assert (Hall : Forall has_labels data)
    by (repeat constructor; eexists _, _; split; reflexivity).
  destruct (@type_facet_option_order C data) as (_ & Hcommit & _).
  destruct (Hcommit Hall) as (opts & Hopts & Hord).
  exists opts. split_and!; [done| |done].
  vm_compute in Hopts. by injection Hopts as <-.
Defined.

(** A build run against the selections [test, build], [test] and the
    empty one; a record without labels. *)
Lemma type_filterFn_selection_witness :
  let C := Fixture.collaborators [] (Fixture.fetchOf [] false) in
  let build := Fixture.run "r1" (Some "build") None in
  @CommitsPipelineRunTab.filterFn C build (Some ["test"; "build"]) = Normal true
  ∧ @CommitsPipelineRunTab.filterFn C build (Some ["test"]) = Normal false
  ∧ @CommitsPipelineRunTab.filterFn C Fixture.bare (Some []) = Normal true
  ∧ @CommitsPipelineRunTab.filterFn C Fixture.bare (Some ["test"])
    = ThrowTypeError
  ∧ @PipelineRunsListView.filterFn C Fixture.bare (Some ["test"])
    = Normal false.
Proof.
  intros C build.
  assert (Hbuild : has_labels build) by (eexists _, _; split; reflexivity).
  assert (Hbare : ¬ has_labels Fixture.bare).
  { intros (m & ls & [= <-] & Hls). discriminate Hls. }
  destruct (@type_filterFn_selection C build) as (_ & _ & Hagree & _).
  destruct (@type_filterFn_selection C Fixture.bare)
    as (Hpass & Hlist & _ & Hthrow).
  split_and!.
  - by rewrite (proj1 (Hagree "test" ["build"] Hbuild)).
  - by rewrite (proj1 (Hagree "test" [] Hbuild)).
  - apply (Hpass (Some [])). by right.
  - apply (Hthrow "test" [] Hbare).
  - destruct (Hlist "test" []) as (admitted & -> & Hiff). f_equal.
    destruct admitted; [|done].
    destruct (proj1 Hiff eq_refl) as (type & Ht & _). discriminate Ht.
Defined.

(** Selecting "build" over the five runs keeps the two build runs. *)
Lemma type_facet_selected_option_count_witness :
  let C := Fixture.collaborators [] (Fixture.fetchOf [] false) in
  ∃ kept,
    filterM (λ plr, @CommitsPipelineRunTab.filterFn C plr (Some ["build"]))
      Fixture.five_runs = Normal kept
    ∧ Fixture.metadata_name <$> kept = ["r1"; "r2"]
    ∧ length kept = 2%nat.
Proof.
  intros C.
  destruct (@type_facet_selected_option_count C Fixture.five_runs)
    as (_ & Hcommit & _).
  edestruct (Hcommit five_runs_have_labels) as (kept & Hk & Hkept & Hlen);
    [reflexivity|left|].
  exists kept. split_and!; [exact Hk| |exact Hlen].
  rewrite Hkept. reflexivity.
Defined.

(** With every run "Succeeded", the status facet offers that one option
    with count 3, and selecting it keeps the three runs. *)
Lemma status_facet_selected_option_count_witness :
  let C := Fixture.collaborators [] (Fixture.fetchOf [] false) in
  ∃ getOptions filterFn kept,
    (facet (@CommitsPipelineRunTab.filterConfigs C) "status"
       ≫= config_getOptions) = Some getOptions
    ∧ (facet (@CommitsPipelineRunTab.filterConfigs C) "status"
         ≫= config_filterFn) = Some filterFn
    ∧ getOptions Fixture.three_runs
      = Normal [ {| value := "Succeeded"; label := "Succeeded"; count := 3 |} ]
    ∧ filterM (λ plr, filterFn plr (Some ["Succeeded"])) Fixture.three_runs
      = Normal kept
    ∧ length kept = 3%nat.
Proof.
  intros C.
  destruct (@status_facet_selected_option_count C Fixture.three_runs)
    as (getOptions & filterFn & (Hg & _) & (Hf & _) & _ & _ & Hsel).
  injection Hg as <-. injection Hf as <-.
  edestruct Hsel as (kept & Hk & _ & Hlen); [reflexivity|left|].
  eexists _, _, kept. split_and!; [reflexivity..|exact Hk|exact Hlen].
Defined.

(** Clearing a query state that also holds entries of other components:
    they stay, in order. *)
Lemma snapshot_handleClearFilters_witness :
  let C := Fixture.collaborators Fixture.mixedParams (Fixture.fetchOf [] false) in
  @SnapshotPipelineRunsList.handleClearFilters C = [("search", "x"); ("page", "2")]
  ∧ params_get (@SnapshotPipelineRunsList.handleClearFilters C) "status" = None
  ∧ params_getAll (@SnapshotPipelineRunsList.handleClearFilters C) "page" = ["2"].
Proof.
  intros C.
  destruct (@snapshot_handleClearFilters C) as (_ & Hclear & Hgone & Hkept & _).
  split_and!.
  - by rewrite Hclear.
  - apply (Hgone statusConfig "status").
    + apply elem_of_cons. right. apply elem_of_cons. by left.
    + apply elem_of_cons. by left.
  - rewrite Hkept; [done|].
    rewrite !elem_of_cons, elem_of_nil. by intros [?|[?|[?|[?|?]]]].
Defined.

(** The three runs with a caller that drops "r2": March is dropped,
    February comes before January. *)
Lemma baseFilteredRuns_sorted_selection_witness :
  let C := Fixture.collaborators [] (Fixture.fetchOf Fixture.three_runs false) in
  let base :=
    @PipelineRunsListView.baseFilteredRuns C Fixture.listPropsWithout_r2 in
  Fixture.metadata_name <$> base = ["r3"; "r1"]
  ∧ StronglySorted (@startsNoEarlier C) base
  ∧ (∀ r, r ∈ base
          ↔ r ∈ Fixture.three_runs ∧ Fixture.metadata_name r ≠ "r2")
  ∧ @PipelineRunsListView.baseFilteredRuns C Fixture.listProps
    = @PipelineRunsListView.sortedPipelineRuns C Fixture.listProps.
Proof.
  intros C base.
  destruct (@baseFilteredRuns_sorted_selection C
              compare_code_units_total compare_code_units_trans
              Fixture.listPropsWithout_r2) as (_ & Hin & Hsorted).
  destruct (@baseFilteredRuns_sorted_selection C
              compare_code_units_total compare_code_units_trans
              Fixture.listProps) as (Hnone & _ & _).
  split_and!.
  - reflexivity.
  - apply Hsorted. repeat constructor; eexists; reflexivity.
  - intros r. unfold base. rewrite (Hin _ r eq_refl). simpl.
    rewrite negb_true_iff. split; intros [Hr Hn]; (split; [done|]).
    + intros Heq. by rewrite Heq in Hn.
    + by apply String.eqb_neq.
  - by apply Hnone.
Defined.

(** The commit tab over three fetched runs: the toolbar counts over the
    three runs. *)
Lemma toolbar_next_to_table_witness :
  let C := Fixture.collaborators [] (Fixture.fetchOf Fixture.three_runs false) in
  ∃ el,
    @CommitsPipelineRunTab.render C = Normal el
    ∧ toolbarOf el
      = Some (@CommitsPipelineRunTab.filterConfigs C, Fixture.three_runs,
              "commits-pipeline-runs-filter").
Proof.
  intros C.
  destruct (proj1 (@toolbar_next_to_table C) _ _ eq_refl eq_refl)
    as (fd & _ & [Hnone|Hsome] & _ & Hloaded).
  - by destruct (Hloaded eq_refl).
  - eexists. split; [reflexivity|exact Hsome].
Defined.

(** A snapshot list that is loading, without and with a
    [customFilter]. *)
Lemma snapshot_loading_witness :
  let C := Fixture.collaborators [] (Fixture.fetchOf [] false) in
  @SnapshotPipelineRunsList.render C (Fixture.loadingProps None)
  = Normal (Spinner "snapshot-plr-loading")
  ∧ @SnapshotPipelineRunsList.render C
      (Fixture.loadingProps (Some (λ _, true)))
    = ThrowTypeError.
Proof.
  intros C. split.
  - exact (proj1 (@snapshot_loading C (Fixture.loadingProps None))
             _ _ eq_refl eq_refl eq_refl).
  - exact (proj1 (proj2 (@snapshot_loading C
                           (Fixture.loadingProps (Some (λ _, true)))))
             _ eq_refl eq_refl).
Defined.

(** The commit tab while the next page is on its way, and the snapshot
    list told the same. *)
Lemma fetching_next_page_witness :
  let C :=
    Fixture.collaborators [] (Fixture.fetchingMore Fixture.three_runs) in
  (∃ el p,
     @CommitsPipelineRunTab.render C = Normal el
     ∧ tableOf el = Some p
     ∧ spinnersOf el = ["Loading more pipeline runs"]
     ∧ Table.loaded p = true)
  ∧ (∃ el p,
       @SnapshotPipelineRunsList.render C
         (Fixture.snapshotProps Fixture.three_runs) = Normal el
       ∧ tableOf el = Some p
       ∧ spinnersOf el = []).
Proof.
  intros C.
  destruct (@fetching_next_page C) as (Hcommit & _ & Hsnapshot).
  split.
  - destruct (Hcommit _ _ eq_refl eq_refl) as (Hs & Hl).
    eexists _, _. split_and!; [reflexivity|reflexivity|exact Hs|].
    by apply Hl.
  - destruct (Hsnapshot (Fixture.snapshotProps Fixture.three_runs)
                _ _ eq_refl eq_refl) as (Hs & _).
    eexists _, _. split_and!; [reflexivity|reflexivity|exact Hs].
Defined.
